(** * SecurePass-Analyzer: password strength analysis and generation

    A shallow embedding of [src/password_analyzer.py],
    [src/password_generator.py] and the statistics of
    [src/breach_checker.py].

    Modelling conventions.
    - A Python [str] is a Rocq [string]; its characters are read as the code
      points 0..255, and [len] is [String.length].
    - A [Dict[str, V]] is an association list in insertion order; subscripting
      a missing key raises [KeyError].
    - Exceptions are values of [exn]; a fallible computation returns
      [result].
    - The entropy, a float rounded to two decimals in the source, is carried
      as an integer number of hundredths of a bit, computed exactly: the
      rounding of [len * log2 charset_size] is taken over the reals.
    - The guess estimator [zxcvbn.zxcvbn] is an external library: it is a
      parameter of the analyzer.
    - The two random sources of the generator, [secrets] (the operating
      system's generator) and [random] (the Mersenne Twister), are two
      independent streams of naturals threaded through a state monad. *)

From Stdlib Require Import ZArith QArith List String Ascii Bool Lia Permutation.
From Stdlib Require Import DecimalString.
Import ListNotations.

Local Open Scope string_scope.
Local Open Scope Z_scope.
Local Open Scope list_scope.

(** ** Exceptions and results *)

Inductive exn : Type :=
| ValueError (msg : string)
| KeyError (key : string)
| IndexError (msg : string).

Inductive result (A : Type) : Type :=
| Ok (a : A)
| Raise (e : exn).

Arguments Ok {A} a.
Arguments Raise {A} e.

Definition rbind {A B : Type} (c : result A) (k : A -> result B) : result B :=
  match c with
  | Ok a => k a
  | Raise e => Raise e
  end.

Declare Scope result_scope.
Delimit Scope result_scope with result.
Notation "'let?' x := c 'in' k" := (rbind c (fun x => k))
  (at level 10, x name, c at level 100, k at level 200) : result_scope.

(** ** Python primitives *)

Module Py.

Definition chars (s : string) : list ascii := list_ascii_of_string s.
Definition str (l : list ascii) : string := string_of_list_ascii l.
Definition len (s : string) : Z := Z.of_nat (String.length s).

Definition code (c : ascii) : nat := nat_of_ascii c.

Definition in_range (lo hi : ascii) (c : ascii) : bool :=
  ((code lo <=? code c) && (code c <=? code hi))%nat.

(** [c in s] for a one-character [c]. *)
Definition mem (c : ascii) (s : list ascii) : bool :=
  existsb (Ascii.eqb c) s.

(** [str.lower] on the code points 0..255: the ASCII capitals, and the
    capitals of the Latin-1 block (all of 192..222 but the sign 215). *)
Definition lower_char (c : ascii) : ascii :=
  let n := code c in
  if ((65 <=? n) && (n <=? 90))%nat then ascii_of_nat (n + 32)
  else if ((192 <=? n) && (n <=? 222) && negb (n =? 215))%nat
       then ascii_of_nat (n + 32)
  else c.

Definition lower (s : list ascii) : list ascii := map lower_char s.

Fixpoint tails {A : Type} (l : list A) : list (list A) :=
  match l with
  | [] => [[]]
  | _ :: t => l :: tails t
  end.

Fixpoint startswith (p s : list ascii) : bool :=
  match p, s with
  | [], _ => true
  | a :: p', b :: s' => Ascii.eqb a b && startswith p' s'
  | _ :: _, [] => false
  end.

(** [sub in s] for strings. *)
Definition contains (sub s : list ascii) : bool :=
  existsb (startswith sub) (tails s).

(** [s.replace(c, '')] for a one-character [c]. *)
Definition remove_char (c : ascii) (s : list ascii) : list ascii :=
  filter (fun x => negb (Ascii.eqb x c)) s.

(** ** Dictionaries *)

Definition dict (V : Type) : Type := list (string * V).

Fixpoint get_opt {V : Type} (d : dict V) (k : string) : option V :=
  match d with
  | [] => None
  | (k', v) :: d' => if String.eqb k' k then Some v else get_opt d' k
  end.

(** [d[k]] *)
Definition getitem {V : Type} (d : dict V) (k : string) : result V :=
  match get_opt d k with
  | Some v => Ok v
  | None => Raise (KeyError k)
  end.

(** [d.get(k, default)] *)
Definition get {V : Type} (d : dict V) (k : string) (default : V) : V :=
  match get_opt d k with
  | Some v => v
  | None => default
  end.

Definition keys {V : Type} (d : dict V) : list string := map fst d.
Definition values {V : Type} (d : dict V) : list V := map snd d.

(** ** More of [str] *)

(** [str.upper] on one character.  The code points 181, 223 and 255 have
    their capitals outside 0..255 and are left as they are; the generator
    only capitalizes words of ASCII letters. *)
Definition upper_char (c : ascii) : ascii :=
  let n := code c in
  if ((97 <=? n) && (n <=? 122))%nat then ascii_of_nat (n - 32)
  else if ((224 <=? n) && (n <=? 254) && negb (n =? 247))%nat
       then ascii_of_nat (n - 32)
  else c.

(** [str.capitalize]: the first character in capitals, the rest lowered. *)
Definition capitalize (s : list ascii) : list ascii :=
  match s with
  | [] => []
  | c :: t => upper_char c :: lower t
  end.

(** [c.islower()], [c.isupper()], [c.isdigit()] on the code points 0..255 *)
Definition islower (c : ascii) : bool :=
  let n := code c in
  (((97 <=? n) && (n <=? 122)) || (n =? 170) || (n =? 181) || (n =? 186)
   || ((223 <=? n) && (n <=? 246)) || ((248 <=? n) && (n <=? 255)))%nat.

Definition isupper (c : ascii) : bool :=
  let n := code c in
  (((65 <=? n) && (n <=? 90)) || ((192 <=? n) && (n <=? 214))
   || ((216 <=? n) && (n <=? 222)))%nat.

Definition isdigit (c : ascii) : bool :=
  let n := code c in
  (((48 <=? n) && (n <=? 57)) || (n =? 178) || (n =? 179) || (n =? 185))%nat.

(** [sep.join(words)] *)
Definition join (sep : list ascii) (words : list (list ascii)) : list ascii :=
  match words with
  | [] => []
  | w :: ws => w ++ flat_map (fun x => sep ++ x) ws
  end.

(** [s[:k]]: a negative bound counts from the end. *)
Definition slice_to (s : list ascii) (k : Z) : list ascii :=
  if k <? 0 then firstn (Z.to_nat (Z.of_nat (List.length s) + k)) s
  else firstn (Z.to_nat k) s.

(** [str(n)] for a natural number *)
Definition str_of_nat (n : nat) : list ascii :=
  chars (NilEmpty.string_of_uint (Nat.to_uint n)).

(** [d[k] = v] *)
Fixpoint setitem {V : Type} (d : dict V) (k : string) (v : V) : dict V :=
  match d with
  | [] => [(k, v)]
  | (k', v') :: d' =>
      if String.eqb k' k then (k', v) :: d' else (k', v') :: setitem d' k v
  end.

End Py.

(** ** The fragment of [re] the analyzer uses

  [matches r s] lists the remainders of [s] after every way [r] can match
  a prefix of it; [search] succeeds when some suffix has a match, which
  is what [bool(re.search(r, s))] observes. *)

Module Re.

Inductive regex : Type :=
| Lit (s : string)                 (* literal text *)
| Class (p : ascii -> bool)        (* [...] , \d *)
| Seq (r1 r2 : regex)
| Alt (r1 r2 : regex)
| Rep (r : regex) (lo hi : nat).   (* r{lo,hi} *)

Fixpoint strip (p s : list ascii) : list (list ascii) :=
  match p, s with
  | [], _ => [s]
  | a :: p', b :: s' => if Ascii.eqb a b then strip p' s' else []
  | _ :: _, [] => []
  end.

Fixpoint times (step : list ascii -> list (list ascii)) (lo n : nat)
         (s : list ascii) : list (list ascii) :=
  let here := if Nat.eqb lo 0 then [s] else [] in
  match n with
  | O => here
  | S n' => here ++ flat_map (times step (Nat.pred lo) n') (step s)
  end.

Fixpoint matches (r : regex) (s : list ascii) : list (list ascii) :=
  match r with
  | Lit t => strip (Py.chars t) s
  | Class p =>
      match s with
      | c :: s' => if p c then [s'] else []
      | [] => []
      end
  | Seq r1 r2 => flat_map (matches r2) (matches r1 s)
  | Alt r1 r2 => matches r1 s ++ matches r2 s
  | Rep r' lo hi => times (matches r') lo hi s
  end.

Definition search (r : regex) (s : list ascii) : bool :=
  existsb (fun t => match matches r t with [] => false | _ => true end)
          (Py.tails s).

Definition alts (l : list string) : regex :=
  fold_right (fun t r => Alt (Lit t) r) (Class (fun _ => false)) l.

(** [\d] on the code points 0..255 *)
Definition digit : regex := Class (Py.in_range "0" "9").

(** [(.)\1{2,}]: a character other than the newline, then at least two
    more copies of it.  The back-reference is outside [regex], so the
    search is written out. *)
Fixpoint search_repeated (s : list ascii) : bool :=
  match s with
  | a :: t =>
      match t with
      | b :: c :: _ =>
          (negb (Ascii.eqb a "010") && Ascii.eqb b a && Ascii.eqb c a)
          || search_repeated t
      | _ => false
      end
  | [] => false
  end.

End Re.

(** ** password_analyzer.py *)

Module PasswordAnalyzer.

Import Py.

(** [self.common_passwords] *)
Definition common_passwords : list string :=
  [ "password"; "123456"; "password123"; "admin"; "letmein";
    "welcome"; "monkey"; "1234567890"; "qwerty"; "abc123";
    "Password1"; "password1"; "123456789"; "welcome123" ].

(** [self.keyboard_patterns] *)
Definition keyboard_patterns : list string :=
  [ "qwerty"; "asdf"; "zxcv"; "1234"; "0987";
    "qwertyuiop"; "asdfghjkl"; "zxcvbnm" ].

(** The character classes of the regular expressions. *)
Definition re_lower : Re.regex := Re.Class (in_range "a" "z").
Definition re_upper : Re.regex := Re.Class (in_range "A" "Z").
Definition re_digit : Re.regex := Re.Class (in_range "0" "9").

(** The members of the bracket expression of the symbol class; the
    double quote is written by its code. *)
Definition symbol_set : list ascii :=
  chars "!@#$%^&*()_+-=[]{};:'" ++ ["034"%char] ++ chars ",.<>?/\|`~".

Definition re_symbol : Re.regex := Re.Class (fun c => mem c symbol_set).

(** *** Entropy

    [hundredths n c] is [round (100 * n * log2 c)]: with [x] that real,
    [Z.log2 (c ^ (200 * n))] is [floor (2 * x)], and rounding to the
    nearest integer is [floor ((floor (2 * x) + 1) / 2)]. *)
Definition hundredths (n c : Z) : Z :=
  (Z.log2 (c ^ (200 * n)) + 1) / 2.

Definition charset_size (password : string) : Z :=
  let s := chars password in
  let charset_size := 0 in
  let charset_size :=
    if Re.search re_lower s then charset_size + 26 else charset_size in
  let charset_size :=
    if Re.search re_upper s then charset_size + 26 else charset_size in
  let charset_size :=
    if Re.search re_digit s then charset_size + 10 else charset_size in
  let charset_size :=
    if Re.search re_symbol s then charset_size + 32 else charset_size in
  charset_size.

(** The entropy in hundredths of a bit. *)
Definition calculate_entropy (password : string) : Z :=
  let charset_size := charset_size password in
  if charset_size =? 0 then 0
  else hundredths (len password) charset_size.

(** *** Patterns *)

Definition re_sequential_numbers : Re.regex :=
  Re.alts ["012"; "123"; "234"; "345"; "456"; "567"; "678"; "789"; "890"].

Definition re_sequential_letters : Re.regex :=
  Re.alts ["abc"; "bcd"; "cde"; "def"; "efg"; "fgh"; "ghi"; "hij"; "ijk";
           "jkl"; "klm"; "lmn"; "mno"; "nop"; "opq"; "pqr"; "qrs"; "rst";
           "stu"; "tuv"; "uvw"; "vwx"; "wxy"; "xyz"].

Definition re_separator : Re.regex :=
  Re.Class (fun c => mem c (chars "-/")).

(** [\d{2,4}[-/]\d{2}[-/]\d{2,4}|\d{6,8}] *)
Definition re_date : Re.regex :=
  Re.Alt
    (Re.Seq (Re.Rep Re.digit 2 4)
       (Re.Seq re_separator
          (Re.Seq (Re.Rep Re.digit 2 2)
             (Re.Seq re_separator (Re.Rep Re.digit 2 4)))))
    (Re.Rep Re.digit 6 8).

Definition check_patterns (password : string) : dict bool :=
  let s := chars password in
  [ ("sequential_numbers", Re.search re_sequential_numbers (lower s));
    ("sequential_letters", Re.search re_sequential_letters (lower s));
    ("repeated_characters", Re.search_repeated s);
    ("keyboard_pattern",
      existsb (fun pattern => contains (chars pattern) (lower s))
              keyboard_patterns);
    ("common_word",
      existsb (String.eqb (str (lower s))) common_passwords);
    ("date_pattern", Re.search re_date s) ].

Definition get_character_diversity (password : string) : dict bool :=
  let s := chars password in
  [ ("has_lowercase", Re.search re_lower s);
    ("has_uppercase", Re.search re_upper s);
    ("has_numbers", Re.search re_digit s);
    ("has_symbols", Re.search re_symbol s);
    ("has_spaces", mem " " s) ].

(** *** The external guess estimator *)

Record CrackTimesDisplay : Type := {
  offline_slow_hashing_1e4_per_second : string;
  offline_fast_hashing_1e10_per_second : string;
  online_throttling_100_per_hour : string;
  online_no_throttling_10_per_second : string
}.

Record Feedback : Type := {
  fb_warning : option string;
  fb_suggestions : option (list string)
}.

Record ZxcvbnResult : Type := {
  zx_score : Z;
  crack_times_display : CrackTimesDisplay;
  feedback : option Feedback
}.

(** *** Score *)

Definition penalties : dict Z :=
  [ ("sequential_numbers", -5);
    ("sequential_letters", -5);
    ("repeated_characters", -10);
    ("keyboard_pattern", -10);
    ("common_word", -20);
    ("date_pattern", -5) ].

Definition sum (l : list Z) : Z := fold_left Z.add l 0.

(** [for pattern, has_pattern in patterns.items(): ...] *)
Definition apply_penalties (patterns : dict bool) (score : Z) : Z :=
  fold_left
    (fun score item =>
       let '(pattern, has_pattern) := item in
       if has_pattern : bool then score + get penalties pattern 0
       else score)
    patterns score.

Definition strength_of (score : Z) : string :=
  if score >=? 80 then "Very Strong"
  else if score >=? 60 then "Strong"
  else if score >=? 40 then "Moderate"
  else if score >=? 20 then "Weak"
  else "Very Weak".

(** *** Recommendations *)

Definition append_if (c : bool) (msg : string) (l : list string)
  : list string :=
  if c then l ++ [msg] else l.

Definition great_password : string :=
  "Great password! Consider using a password manager to store it securely.".

Definition generate_recommendations
    (password : string) (patterns diversity : dict bool)
  : result (list string) :=
  (let recommendations := [] in
   let recommendations :=
     append_if (len password <? 12)
       "Increase password length to at least 12 characters" recommendations in
   let? has_uppercase := getitem diversity "has_uppercase" in
   let recommendations :=
     append_if (negb has_uppercase) "Add uppercase letters" recommendations in
   let? has_lowercase := getitem diversity "has_lowercase" in
   let recommendations :=
     append_if (negb has_lowercase) "Add lowercase letters" recommendations in
   let? has_numbers := getitem diversity "has_numbers" in
   let recommendations :=
     append_if (negb has_numbers) "Include numbers" recommendations in
   let? has_symbols := getitem diversity "has_symbols" in
   let recommendations :=
     append_if (negb has_symbols) "Add special symbols (!@#$%^&*)"
       recommendations in
   let? sequential_numbers := getitem patterns "sequential_numbers" in
   let recommendations :=
     append_if sequential_numbers "Avoid sequential numbers (123, 456)"
       recommendations in
   let? sequential_letters := getitem patterns "sequential_letters" in
   let recommendations :=
     append_if sequential_letters "Avoid sequential letters (abc, xyz)"
       recommendations in
   let? repeated_characters := getitem patterns "repeated_characters" in
   let recommendations :=
     append_if repeated_characters
       "Avoid repeating the same character multiple times" recommendations in
   let? keyboard_pattern := getitem patterns "keyboard_pattern" in
   let recommendations :=
     append_if keyboard_pattern "Avoid keyboard patterns (qwerty, asdf)"
       recommendations in
   let? common_word := getitem patterns "common_word" in
   let recommendations :=
     append_if common_word
       "This password is too common - choose something unique"
       recommendations in
   let? date_pattern := getitem patterns "date_pattern" in
   let recommendations :=
     append_if date_pattern "Avoid using dates as they're easy to guess"
       recommendations in
   let recommendations :=
     match recommendations with
     | [] => (recommendations ++ [great_password])%list
     | _ => recommendations
     end in
   Ok recommendations)%result.

(** *** The report *)

Record AnalysisReport : Type := {
  password_length : Z;
  score : Z;
  strength : string;
  entropy_bits : Z;
  patterns_found : dict bool;
  character_diversity : dict bool;
  crack_time_estimates : dict string;
  recommendations : list string;
  zxcvbn_score : Z;
  warning : string;
  suggestions : list string
}.

Section Analyzer.

Variable zxcvbn : string -> ZxcvbnResult.

Definition calculate_score (password : string) : Z * string :=
  if String.eqb password "" then (0, "Empty")
  else
    let score := 0 in
    (* Length scoring *)
    let length := len password in
    let score :=
      if length >=? 16 then score + 30
      else if length >=? 12 then score + 25
      else if length >=? 8 then score + 15
      else score + Z.max 0 (length * 2) in
    (* Entropy scoring; the thresholds are in hundredths *)
    let entropy := calculate_entropy password in
    let score :=
      if entropy >=? 6000 then score + 30
      else if entropy >=? 4000 then score + 20
      else if entropy >=? 2500 then score + 10
      else score + Z.max 0 (Z.quot entropy 200) in
    (* Character diversity *)
    let diversity := get_character_diversity password in
    let score :=
      score + sum (map (fun _ => 5)
                       (filter (fun value => value) (values diversity))) in
    (* Pattern penalties *)
    let patterns := check_patterns password in
    let score := apply_penalties patterns score in
    (* zxcvbn *)
    let zxcvbn_result := zxcvbn password in
    let score := score + zx_score zxcvbn_result * 4 in
    let score := Z.max 0 (Z.min 100 score) in
    (score, strength_of score).

Definition analyze (password : string) : result AnalysisReport :=
  (let '(score, strength) := calculate_score password in
   let patterns := check_patterns password in
   let diversity := get_character_diversity password in
   let entropy := calculate_entropy password in
   let zxcvbn_result := zxcvbn password in
   let display := crack_times_display zxcvbn_result in
   let crack_times :=
     [ ("offline_slow", offline_slow_hashing_1e4_per_second display);
       ("offline_fast", offline_fast_hashing_1e10_per_second display);
       ("online_throttled", online_throttling_100_per_hour display);
       ("online_unthrottled", online_no_throttling_10_per_second display) ] in
   let? recommendations :=
     generate_recommendations password patterns diversity in
   Ok {| password_length := len password;
         score := score;
         strength := strength;
         entropy_bits := entropy;
         patterns_found := patterns;
         character_diversity := diversity;
         crack_time_estimates := crack_times;
         recommendations := recommendations;
         zxcvbn_score := zx_score zxcvbn_result;
         warning :=
           match feedback zxcvbn_result with
           | Some fb =>
               match fb_warning fb with Some w => w | None => "" end
           | None => ""
           end;
         suggestions :=
           match feedback zxcvbn_result with
           | Some fb =>
               match fb_suggestions fb with Some l => l | None => [] end
           | None => []
           end |})%result.

End Analyzer.

(** *** The estimator as the code calls it

    [zxcvbn.zxcvbn(password)] is called with no handler around it, so an
    exception of the library leaves [calculate_score] and [analyze].  Here
    the estimator returns a [result]; the definitions above are the case
    of an estimator that returns on every password. *)

Module Raising.

Section Analyzer.

Variable zxcvbn : string -> result ZxcvbnResult.

Definition calculate_score (password : string) : result (Z * string) :=
  if String.eqb password "" then Ok (0, "Empty")
  else
    let score := 0 in
    (* Length scoring *)
    let length := len password in
    let score :=
      if length >=? 16 then score + 30
      else if length >=? 12 then score + 25
      else if length >=? 8 then score + 15
      else score + Z.max 0 (length * 2) in
    (* Entropy scoring; the thresholds are in hundredths *)
    let entropy := calculate_entropy password in
    let score :=
      if entropy >=? 6000 then score + 30
      else if entropy >=? 4000 then score + 20
      else if entropy >=? 2500 then score + 10
      else score + Z.max 0 (Z.quot entropy 200) in
    (* Character diversity *)
    let diversity := get_character_diversity password in
    let score :=
      score + sum (map (fun _ => 5)
                       (filter (fun value => value) (values diversity))) in
    (* Pattern penalties *)
    let patterns := check_patterns password in
    let score := apply_penalties patterns score in
    (* zxcvbn *)
    (let? zxcvbn_result := zxcvbn password in
     let score := score + zx_score zxcvbn_result * 4 in
     let score := Z.max 0 (Z.min 100 score) in
     Ok (score, strength_of score))%result.

Definition analyze (password : string) : result AnalysisReport :=
  (let? scored := calculate_score password in
   let '(score, strength) := scored in
   let patterns := check_patterns password in
   let diversity := get_character_diversity password in
   let entropy := calculate_entropy password in
   (* Get zxcvbn analysis *)
   let? zxcvbn_result := zxcvbn password in
   let display := crack_times_display zxcvbn_result in
   let crack_times :=
     [ ("offline_slow", offline_slow_hashing_1e4_per_second display);
       ("offline_fast", offline_fast_hashing_1e10_per_second display);
       ("online_throttled", online_throttling_100_per_hour display);
       ("online_unthrottled", online_no_throttling_10_per_second display) ] in
   let? recommendations :=
     generate_recommendations password patterns diversity in
   Ok {| password_length := len password;
         score := score;
         strength := strength;
         entropy_bits := entropy;
         patterns_found := patterns;
         character_diversity := diversity;
         crack_time_estimates := crack_times;
         recommendations := recommendations;
         zxcvbn_score := zx_score zxcvbn_result;
         warning :=
           match feedback zxcvbn_result with
           | Some fb =>
               match fb_warning fb with Some w => w | None => "" end
           | None => ""
           end;
         suggestions :=
           match feedback zxcvbn_result with
           | Some fb =>
               match fb_suggestions fb with Some l => l | None => [] end
           | None => []
           end |})%result.

End Analyzer.

End Raising.

End PasswordAnalyzer.

(** ** password_generator.py *)

Module PasswordGenerator.

Import Py.

(** *** Random sources

    A source is an unbounded stream of naturals and a position.  The
    world holds the two sources the module imports: [secrets], backed by
    the operating system's generator, and [random], the module-level
    Mersenne Twister.  One element of the stream stands for one call of
    the library's [_randbelow], that is for the value its rejection loop
    ends on: the position counts these calls, not the words the library
    reads from its generator. *)

Record source : Type := {
  draws : nat -> nat;
  position : nat
}.

Definition next (s : source) : nat * source :=
  (draws s (position s),
   {| draws := draws s; position := S (position s) |}).

Record world : Type := {
  system_random : source;
  mersenne_twister : source
}.

Definition M (A : Type) : Type := world -> result (A * world).

Definition ret {A : Type} (a : A) : M A := fun w => Ok (a, w).

Definition bind {A B : Type} (c : M A) (k : A -> M B) : M B :=
  fun w =>
    match c w with
    | Ok (a, w') => k a w'
    | Raise e => Raise e
    end.

Definition raise {A : Type} (e : exn) : M A := fun _ => Raise e.

Declare Scope gen_scope.
Delimit Scope gen_scope with gen.
Notation "x <- c ;; k" := (bind c (fun x => k))
  (at level 61, c at next level, right associativity) : gen_scope.

(** [SystemRandom()._randbelow(n)]: one call, whose value below [n] is
    read off the next element of the stream. *)
Definition secrets_randbelow (n : nat) : M nat :=
  fun w =>
    let (r, s) := next (system_random w) in
    Ok (Nat.modulo r n,
        {| system_random := s; mersenne_twister := mersenne_twister w |}).

(** [random._inst._randbelow(n)]: one call, likewise. *)
Definition random_randbelow (n : nat) : M nat :=
  fun w =>
    let (r, s) := next (mersenne_twister w) in
    Ok (Nat.modulo r n,
        {| system_random := system_random w; mersenne_twister := s |}).

(** [seq[i]] *)
Definition index {A : Type} (seq : list A) (i : nat) : M A :=
  match nth_error seq i with
  | Some a => ret a
  | None => raise (IndexError "list index out of range")
  end.

(** [secrets.choice(seq)] *)
Definition secrets_choice {A : Type} (seq : list A) : M A :=
  match seq with
  | [] => raise (IndexError "Cannot choose from an empty sequence")
  | _ => (i <- secrets_randbelow (List.length seq) ;; index seq i)%gen
  end.

(** [x[i] = v] on a list; the caller has checked the index. *)
Fixpoint set_nth {A : Type} (i : nat) (v : A) (x : list A) : list A :=
  match x, i with
  | [], _ => []
  | _ :: t, O => v :: t
  | a :: t, S i' => a :: set_nth i' v t
  end.

(** [x[i], x[j] = x[j], x[i]] *)
Definition swap {A : Type} (i j : nat) (x : list A) : M (list A) :=
  (xj <- index x j ;;
   xi <- index x i ;;
   ret (set_nth j xi (set_nth i xj x)))%gen.

(** [for i in reversed(range(1, len(x))): ...], from [i] downwards *)
Fixpoint shuffle_from {A : Type} (i : nat) (x : list A) : M (list A) :=
  match i with
  | O => ret x
  | S i' =>
      (j <- random_randbelow (i + 1) ;;
       x <- swap i j x ;;
       shuffle_from i' x)%gen
  end.

(** [random.shuffle(x)] *)
Definition random_shuffle {A : Type} (x : list A) : M (list A) :=
  shuffle_from (List.length x - 1) x.

(** *** Character classes *)

Definition lowercase : list ascii := chars "abcdefghijklmnopqrstuvwxyz".
Definition uppercase : list ascii := chars "ABCDEFGHIJKLMNOPQRSTUVWXYZ".
Definition digits : list ascii := chars "0123456789".
Definition symbols : list ascii := chars "!@#$%^&*()_+-=[]{}|;:,.<>?".

(** *** generate_random *)

(** [for _ in range(n): password.append(secrets.choice(char_pool))] *)
Fixpoint fill (n : nat) (char_pool password : list ascii)
  : M (list ascii) :=
  match n with
  | O => ret password
  | S n' =>
      (c <- secrets_choice char_pool ;;
       fill n' char_pool (password ++ [c]))%gen
  end.

(** One [if use_...:] block: extend the pool, draw the mandatory character. *)
Definition add_class (use : bool) (chars : list ascii)
    (st : list ascii * list ascii) : M (list ascii * list ascii) :=
  let '(char_pool, required_chars) := st in
  if use then
    (c <- secrets_choice chars ;;
     ret (char_pool ++ chars, required_chars ++ [c]))%gen
  else ret (char_pool, required_chars).

Definition generate_random
    (length : Z)
    (use_lowercase use_uppercase use_digits use_symbols : bool)
    (exclude_ambiguous : bool) (exclude_chars : string) : M string :=
  if length <? 4 then
    raise (ValueError "Password length must be at least 4 characters")
  else
    (let char_pool := [] in
     let required_chars := [] in
     st <- add_class use_lowercase
             (if exclude_ambiguous
              then remove_char "o" (remove_char "l" lowercase)
              else lowercase)
             (char_pool, required_chars) ;;
     st <- add_class use_uppercase
             (if exclude_ambiguous
              then remove_char "I" (remove_char "O" uppercase)
              else uppercase)
             st ;;
     st <- add_class use_digits
             (if exclude_ambiguous
              then remove_char "1" (remove_char "0" digits)
              else digits)
             st ;;
     st <- add_class use_symbols symbols st ;;
     let '(char_pool, required_chars) := st in
     (* Remove excluded characters *)
     let char_pool :=
       fold_left (fun pool char => remove_char char pool)
                 (chars exclude_chars) char_pool in
     match char_pool with
     | [] =>
         raise (ValueError
                  "No characters available with the specified criteria")
     | _ =>
         let password := required_chars in
         let remaining_length := length - Z.of_nat (List.length password) in
         password <- fill (Z.to_nat remaining_length) char_pool password ;;
         password <- random_shuffle password ;;
         ret (str password)
     end)%gen.

(** *** generate_custom_pattern *)

(** The body of [for char in pattern:]. *)
Definition pattern_char (char : ascii) (password : list ascii)
  : M (list ascii) :=
  (if Ascii.eqb char "l" then
     c <- secrets_choice lowercase ;; ret (password ++ [c])
   else if Ascii.eqb char "L" then
     c <- secrets_choice uppercase ;; ret (password ++ [c])
   else if Ascii.eqb char "d" then
     c <- secrets_choice digits ;; ret (password ++ [c])
   else if Ascii.eqb char "s" then
     c <- secrets_choice symbols ;; ret (password ++ [c])
   else if Ascii.eqb char "a" then
     c <- secrets_choice (lowercase ++ uppercase ++ digits) ;;
     ret (password ++ [c])
   else if Ascii.eqb char "*" then
     c <- secrets_choice (lowercase ++ uppercase ++ digits ++ symbols) ;;
     ret (password ++ [c])
   else
     (* Literal character *)
     ret (password ++ [char]))%gen.

Fixpoint custom_loop (pattern password : list ascii) : M (list ascii) :=
  match pattern with
  | [] => ret password
  | char :: pattern' =>
      (password <- pattern_char char password ;;
       custom_loop pattern' password)%gen
  end.

Definition generate_custom_pattern (pattern : string) : M string :=
  (password <- custom_loop (chars pattern) [] ;;
   ret (str password))%gen.

(** *** Word lists *)

Definition adjectives : list string :=
  [ "happy"; "brave"; "quick"; "smart"; "bright"; "strong"; "swift"; "bold";
    "fierce"; "gentle"; "mighty"; "noble"; "proud"; "royal"; "sharp"; "wise" ].

Definition nouns : list string :=
  [ "eagle"; "tiger"; "mountain"; "ocean"; "thunder"; "lightning"; "dragon";
    "phoenix"; "warrior"; "hunter"; "guardian"; "champion"; "legend"; "hero" ].

Definition verbs : list string :=
  [ "runs"; "flies"; "jumps"; "fights"; "guards"; "protects"; "strikes";
    "soars"; "climbs"; "dives"; "hunts"; "explores"; "conquers"; "defends" ].

(** [[c for _ in range(n)]] *)
Fixpoint replicateM {A : Type} (n : nat) (c : M A) : M (list A) :=
  match n with
  | O => ret []
  | S n' => (x <- c ;; xs <- replicateM n' c ;; ret (x :: xs))%gen
  end.

(** [str(secrets.randbelow(10))] *)
Definition random_digit : M (list ascii) :=
  (d <- secrets_randbelow 10 ;; ret (str_of_nat d))%gen.

(** *** generate_memorable *)

(** [for i in range(word_count): ...], with [n] words to go from index [i] *)
Fixpoint memorable_words (n i : nat) (capitalize : bool)
    (words : list (list ascii)) : M (list (list ascii)) :=
  match n with
  | O => ret words
  | S n' =>
      (word <-
         (if Nat.eqb (Nat.modulo i 3) 0 then secrets_choice adjectives
          else if Nat.eqb (Nat.modulo i 3) 1 then secrets_choice nouns
          else secrets_choice verbs) ;;
       let word := chars word in
       let word :=
         if capitalize && Nat.eqb (Nat.modulo i 2) 0
         then Py.capitalize word else word in
       memorable_words n' (S i) capitalize (words ++ [word]))%gen
  end.

Definition generate_memorable
    (word_count : Z) (add_numbers add_symbols capitalize : bool) : M string :=
  let word_count := if word_count <? 2 then 2 else word_count in
  (words <- memorable_words (Z.to_nat word_count) 0 capitalize [] ;;
   let password := List.concat words in
   password <-
     (if add_numbers then
        (* Add random 2-4 digit number *)
        num_digits <- secrets_choice [2; 3; 4]%nat ;;
        number <- replicateM num_digits random_digit ;;
        ret (password ++ List.concat number)
      else ret password) ;;
   password <-
     (if add_symbols then
        (* Add 1-2 random symbols *)
        num_symbols <- secrets_choice [1; 2]%nat ;;
        symbols <- replicateM num_symbols (secrets_choice symbols) ;;
        ret (password ++ symbols)
      else ret password) ;;
   ret (str password))%gen.

(** *** generate_pronounceable *)

Definition consonants : list ascii := chars "bcdfghjklmnpqrstvwxyz".
Definition vowels : list ascii := chars "aeiou".

(** [for char in pattern: ...] *)
Fixpoint syllable_of (pattern syllable : list ascii) : M (list ascii) :=
  match pattern with
  | [] => ret syllable
  | char :: pattern' =>
      (c <- (if Ascii.eqb char "c" then secrets_choice consonants
             else secrets_choice vowels) ;;
       syllable_of pattern' (syllable ++ [c]))%gen
  end.

(** [while len(password) < target: ...].  The loop is run on fuel; [None]
    stands for fuel running out before the loop ends. *)
Fixpoint syllables (fuel : nat) (target : Z) (password : list ascii)
  : M (option (list ascii)) :=
  if Z.of_nat (List.length password) <? target then
    match fuel with
    | O => ret None
    | S fuel' =>
        (pattern <- secrets_choice ["cv"; "cvc"; "vc"] ;;
         syllable <- syllable_of (chars pattern) [] ;;
         (* Occasionally capitalize: [or] draws only when needed *)
         cap <- (if Nat.eqb (List.length password) 0 then ret true
                 else r <- secrets_randbelow 3 ;; ret (Nat.eqb r 0)) ;;
         let syllable := if cap : bool then capitalize syllable else syllable in
         syllables fuel' target (password ++ syllable))%gen
    end
  else ret (Some password).

(** The loop gets [target] units of fuel; every round adds at least two
    characters, so this is more than it uses. *)
Definition generate_pronounceable
    (length : Z) (add_numbers add_symbols : bool) : M (option string) :=
  let target :=
    length - (if add_numbers then 4 else 0) - (if add_symbols then 2 else 0) in
  (r <- syllables (Z.to_nat target) target [] ;;
   match r with
   | None => ret None
   | Some password =>
       (* Trim to exact length *)
       let password := slice_to password target in
       password <-
         (if add_numbers then
            number <- replicateM 4 random_digit ;;
            ret (password ++ List.concat number)
          else ret password) ;;
       password <-
         (if add_symbols then
            syms <- replicateM 2 (secrets_choice symbols) ;;
            ret (password ++ syms)
          else ret password) ;;
       ret (Some (str password))
   end)%gen.

(** *** generate_passphrase *)

Definition word_list : list string :=
  adjectives ++ nouns
  ++ [ "book"; "tree"; "river"; "cloud"; "star"; "moon"; "sun";
       "fire"; "water"; "earth"; "wind"; "stone"; "crystal";
       "shadow"; "light"; "dream"; "spirit"; "heart"; "soul" ].

(** [for _ in range(n): ...] *)
Fixpoint passphrase_words (n : nat) (capitalize_words : bool)
    (words : list (list ascii)) : M (list (list ascii)) :=
  match n with
  | O => ret words
  | S n' =>
      (word <- secrets_choice word_list ;;
       let word := chars word in
       let word := if capitalize_words then capitalize word else word in
       passphrase_words n' capitalize_words (words ++ [word]))%gen
  end.

Definition generate_passphrase
    (word_count : Z) (separator : string) (capitalize_words : bool)
  : M string :=
  (words <- passphrase_words (Z.to_nat word_count) capitalize_words [] ;;
   ret (str (join (chars separator) words)))%gen.

(** *** batch_generate *)

(** [for _ in range(count)]: append one [generate_random] password. *)
Fixpoint batch_loop (n : nat) (length : Z)
    (use_lowercase use_uppercase use_digits use_symbols : bool)
    (exclude_ambiguous : bool) (exclude_chars : string)
    (passwords : list string) : M (list string) :=
  match n with
  | O => ret passwords
  | S n' =>
      (password <- generate_random length use_lowercase use_uppercase
                     use_digits use_symbols exclude_ambiguous exclude_chars ;;
       batch_loop n' length use_lowercase use_uppercase use_digits
         use_symbols exclude_ambiguous exclude_chars
         (passwords ++ [password]))%gen
  end.

(** The keyword arguments are those of [generate_random]. *)
Definition batch_generate (count : Z) (length : Z)
    (use_lowercase use_uppercase use_digits use_symbols : bool)
    (exclude_ambiguous : bool) (exclude_chars : string) : M (list string) :=
  batch_loop (Z.to_nat count) length use_lowercase use_uppercase use_digits
    use_symbols exclude_ambiguous exclude_chars [].

(** *** get_password_suggestions *)

Record Suggestion : Type := {
  sg_length : Z;
  sg_pattern : string;
  sg_example : string;
  sg_strength : string
}.

Definition get_password_suggestions (purpose : string) : M Suggestion :=
  (general <- generate_random 16 true true true true false "" ;;
   high_security <- generate_random 24 true true true true false "" ;;
   memorable <- generate_memorable 4 true true true ;;
   passphrase <- generate_passphrase 6 "-" false ;;
   pin <- generate_random 6 false false true false false "" ;;
   let suggestions : dict Suggestion :=
     [ ("general",
        {| sg_length := 16;
           sg_pattern := "Random with all character types";
           sg_example := general;
           sg_strength := "Strong" |});
       ("high_security",
        {| sg_length := 24;
           sg_pattern := "Random with all character types";
           sg_example := high_security;
           sg_strength := "Very Strong" |});
       ("memorable",
        {| sg_length := 20;
           sg_pattern := "Word combination with numbers and symbols";
           sg_example := memorable;
           sg_strength := "Strong" |});
       ("passphrase",
        {| sg_length := 30;
           sg_pattern := "Multiple words separated by hyphens";
           sg_example := passphrase;
           sg_strength := "Very Strong" |});
       ("pin",
        {| sg_length := 6;
           sg_pattern := "Digits only";
           sg_example := pin;
           sg_strength := "Weak (for PINs only)" |}) ] in
   match getitem suggestions "general" with
   | Ok default => ret (get suggestions purpose default)
   | Raise e => raise e
   end)%gen.

(** *** estimate_strength *)

Record StrengthEstimate : Type := {
  es_entropy : Z;
  es_strength : string;
  es_charset_size : Z;
  es_length : Z
}.

(** [length * log2(charset_size) >= bits], decided exactly: the product is
    at least [bits] when [charset_size ^ length] is at least [2 ^ bits]. *)
Definition entropy_at_least (length charset_size bits : Z) : bool :=
  2 ^ bits <=? charset_size ^ length.

(** The entropy is reported in hundredths of a bit, as in the analyzer. *)
Definition estimate_strength (password : string) : StrengthEstimate :=
  let s := chars password in
  let length := len password in
  let has_lower := existsb islower s in
  let has_upper := existsb isupper s in
  let has_digit := existsb isdigit s in
  let has_symbol := existsb (fun c => mem c symbols) s in
  let charset_size := 0 in
  let charset_size := if has_lower then charset_size + 26 else charset_size in
  let charset_size := if has_upper then charset_size + 26 else charset_size in
  let charset_size := if has_digit then charset_size + 10 else charset_size in
  let charset_size :=
    if has_symbol then charset_size + Z.of_nat (List.length symbols)
    else charset_size in
  let at_least bits :=
    if charset_size >? 0 then entropy_at_least length charset_size bits
    else 0 >=? bits in
  let strength :=
    if at_least 60 then "Very Strong"
    else if at_least 40 then "Strong"
    else if at_least 30 then "Moderate"
    else "Weak" in
  {| es_entropy :=
       if charset_size >? 0
       then PasswordAnalyzer.hundredths length charset_size
       else 0;
     es_strength := strength;
     es_charset_size := charset_size;
     es_length := length |}.

End PasswordGenerator.

(** ** breach_checker.py

    The lookup [check_password_breach] talks to the network; the functions
    that consume its result take it as a parameter, which gives the answer
    of the lookup by its rank among the calls and its password.  The pause
    between two lookups is left out.  The two ratios of the statistics,
    floats in the source, are exact rationals here. *)

Module BreachChecker.

Import Py.

Definition _calculate_risk_level (is_breached : bool) (exposure_count : Z)
  : string :=
  if negb is_breached then "Safe"
  else if exposure_count <? 10 then "Low Risk"
  else if exposure_count <? 100 then "Medium Risk"
  else if exposure_count <? 1000 then "High Risk"
  else "Critical Risk".

Record BreachStatistics : Type := {
  total_checked : Z;
  breached_count : Z;
  safe_count : Z;
  breach_percentage : Q;
  total_exposures : Z;
  average_exposures : Q;
  risk_distribution : dict Z
}.

Section Checker.

Variable check_password_breach : nat -> string -> bool * Z.

(** [for password in passwords: ...] of [get_breach_statistics], from the
    lookup of rank [i] on *)
Fixpoint statistics_loop (i : nat) (passwords : list string)
    (breached_count total_exposures : Z) (risk_distribution : dict Z)
  : result (Z * Z * dict Z) :=
  match passwords with
  | [] => Ok (breached_count, total_exposures, risk_distribution)
  | password :: passwords' =>
      let '(is_breached, count) := check_password_breach i password in
      let breached_count :=
        if is_breached then breached_count + 1 else breached_count in
      let total_exposures :=
        if is_breached then total_exposures + count else total_exposures in
      let risk_level := _calculate_risk_level is_breached count in
      (let? n := getitem risk_distribution risk_level in
       let risk_distribution := setitem risk_distribution risk_level (n + 1) in
       statistics_loop (S i) passwords' breached_count total_exposures
         risk_distribution)%result
  end.

Definition get_breach_statistics (passwords : list string)
  : result BreachStatistics :=
  let total := Z.of_nat (List.length passwords) in
  let risk_distribution :=
    [ ("Safe", 0); ("Low Risk", 0); ("Medium Risk", 0); ("High Risk", 0);
      ("Critical Risk", 0) ] in
  (let? st := statistics_loop 0 passwords 0 0 risk_distribution in
   let '(breached_count, total_exposures, risk_distribution) := st in
   Ok {| total_checked := total;
         breached_count := breached_count;
         safe_count := total - breached_count;
         breach_percentage :=
           if total >? 0
           then (inject_Z breached_count / inject_Z total * 100)%Q
           else 0%Q;
         total_exposures := total_exposures;
         average_exposures :=
           if breached_count >? 0
           then (inject_Z total_exposures / inject_Z breached_count)%Q
           else 0%Q;
         risk_distribution := risk_distribution |})%result.

End Checker.

End BreachChecker.

(** ** The specification's wording of the score and of the selection pool

    These definitions follow the specification's sentences, not the code;
    the theorems below compare them with the code. *)

Module Spec.

Import Py.

(** "Length component: >=16 chars -> 30; >=12 -> 25; >=8 -> 15; else
    2 x length (capped at 14)." *)
Definition length_component (n : Z) : Z :=
  if 16 <=? n then 30
  else if 12 <=? n then 25
  else if 8 <=? n then 15
  else Z.min 14 (2 * n).

(** "Entropy component: entropy >=60 -> 30; >=40 -> 20; >=25 -> 10; else
    floor(entropy / 2)", the entropy given in hundredths of a bit. *)
Definition entropy_component (e : Z) : Z :=
  if 6000 <=? e then 30
  else if 4000 <=? e then 20
  else if 2500 <=? e then 10
  else e / 200.

(** "5 points per true flag in CharacterDiversity (space counts)." *)
Definition diversity_component (diversity : dict bool) : Z :=
  5 * Z.of_nat (count_occ bool_dec (values diversity) true).

(** "sequential-digits -5, sequential-letters -5, repeated-run -10,
    keyboard-pattern -10, common-password -20, date-pattern -5." *)
Definition penalty_of (kind : string) : Z :=
  if String.eqb kind "sequential_numbers" then -5
  else if String.eqb kind "sequential_letters" then -5
  else if String.eqb kind "repeated_characters" then -10
  else if String.eqb kind "keyboard_pattern" then -10
  else if String.eqb kind "common_word" then -20
  else if String.eqb kind "date_pattern" then -5
  else 0.

(** "Sum of matched PatternFindings penalties." *)
Definition pattern_penalties (patterns : dict bool) : Z :=
  fold_right
    (fun item acc =>
       (if snd item : bool then penalty_of (fst item) else 0) + acc)
    0 patterns.

Definition clamp (x : Z) : Z :=
  if x <? 0 then 0 else if 100 <? x then 100 else x.

(** ">=80 Very-Strong, >=60 Strong, >=40 Moderate, >=20 Weak, else
    Very-Weak", with the labels spelled as the code prints them. *)
Definition label (score : Z) : string :=
  if 80 <=? score then "Very Strong"
  else if 60 <=? score then "Strong"
  else if 40 <=? score then "Moderate"
  else if 20 <=? score then "Weak"
  else "Very Weak".

(** "Build the union pool of selected classes minus excluded/ambiguous
    chars." *)
Definition ambiguous : list ascii := chars "loOI01".

Definition selected (use : bool) (class : list ascii) : list ascii :=
  if use then class else [].

Definition selection_pool
    (use_lowercase use_uppercase use_digits use_symbols : bool)
    (exclude_ambiguous : bool) (exclude_chars : string) : list ascii :=
  filter
    (fun c =>
       negb (exclude_ambiguous && mem c ambiguous)
       && negb (mem c (chars exclude_chars)))
    (selected use_lowercase PasswordGenerator.lowercase
     ++ selected use_uppercase PasswordGenerator.uppercase
     ++ selected use_digits PasswordGenerator.digits
     ++ selected use_symbols PasswordGenerator.symbols).

(** The substitution map of the Custom Pattern strategy: the characters a
    pattern character may produce. *)
Definition substitution (p : ascii) : list ascii :=
  if Ascii.eqb p "l" then PasswordGenerator.lowercase
  else if Ascii.eqb p "L" then PasswordGenerator.uppercase
  else if Ascii.eqb p "d" then PasswordGenerator.digits
  else if Ascii.eqb p "s" then PasswordGenerator.symbols
  else if Ascii.eqb p "a" then
    PasswordGenerator.lowercase ++ PasswordGenerator.uppercase
    ++ PasswordGenerator.digits
  else if Ascii.eqb p "*" then
    PasswordGenerator.lowercase ++ PasswordGenerator.uppercase
    ++ PasswordGenerator.digits ++ PasswordGenerator.symbols
  else [p].


(** "The output contains at least one character of the class." *)
Definition has_char_of (class : list ascii) (password : string) : Prop :=
  exists c, In c (chars password) /\ In c class.


End Spec.

(** ** Shapes of generated passwords

    Predicates used to state what the generation strategies return. *)

Module Shape.

Import Py PasswordGenerator.

(** Every character of [s] belongs to [class]. *)
Definition all_of (class s : list ascii) : Prop :=
  Forall (fun c => In c class) s.

(** [P (from + i) x] for the element [x] at each index [i] of [l]. *)
Definition indexed {A : Type} (P : nat -> A -> Prop) (from : nat)
    (l : list A) : Prop :=
  forall i x, nth_error l i = Some x -> P (from + i)%nat x.

(** The word at position [i] of a memorable password: an adjective, a noun
    or a verb by [i] modulo 3, capitalized at the even positions when
    asked. *)
Definition memorable_word (capitalize : bool) (i : nat) (word : list ascii)
  : Prop :=
  exists w,
    In w (nth (Nat.modulo i 3) [adjectives; nouns; verbs] [])
    /\ word = if capitalize && Nat.eqb (Nat.modulo i 2) 0
              then Py.capitalize (chars w) else chars w.

(** A word of a passphrase. *)
Definition passphrase_word (capitalize_words : bool) (word : list ascii)
  : Prop :=
  exists w,
    In w word_list
    /\ word = if capitalize_words then Py.capitalize (chars w) else chars w.

(** An ASCII letter or digit. *)
Definition ascii_alnum (c : ascii) : bool :=
  in_range "a" "z" c || in_range "A" "Z" c || in_range "0" "9" c.

(** The sum of the lengths of the words. *)
Definition total_length (words : list (list ascii)) : nat :=
  List.length (List.concat words).

End Shape.

(** ** Sample inputs

    A guess estimator that scores every password alike, and a world whose
    two sources are given by their streams. *)

Module Sample.

Import PasswordAnalyzer PasswordGenerator.

Definition estimator (score : Z) : string -> ZxcvbnResult :=
  fun _ =>
    {| zx_score := score;
       crack_times_display :=
         {| offline_slow_hashing_1e4_per_second := "centuries";
            offline_fast_hashing_1e10_per_second := "3 hours";
            online_throttling_100_per_hour := "centuries";
            online_no_throttling_10_per_second := "centuries" |};
       feedback := None |}.

(** An estimator that refuses a password of more than 72 characters, as
    the [max_length] of [zxcvbn.zxcvbn] does, and scores the others
    alike. *)
Definition length_limited_estimator (score : Z)
  : string -> result ZxcvbnResult :=
  fun password =>
    if 72 <? Py.len password
    then Raise (ValueError "Password exceeds max length of 72 characters.")
    else Ok (estimator score password).

Definition world_of (secure general : nat -> nat) : world :=
  {| system_random := {| draws := secure; position := 0 |};
     mersenne_twister := {| draws := general; position := 0 |} |}.

(** What a run returns, without the final world. *)
Definition returned {A : Type} (r : result (A * world)) : result A :=
  match r with
  | Ok (a, _) => Ok a
  | Raise e => Raise e
  end.

(** How many calls of [_randbelow] a run made on the Mersenne Twister. *)
Definition general_draws {A : Type} (r : result (A * world)) : option nat :=
  match r with
  | Ok (_, w) => Some (position (mersenne_twister w))
  | Raise _ => None
  end.

End Sample.

(** * Properties of the analyzer *)

Section AnalyzerFacts.

Import Py PasswordAnalyzer.

Variable zxcvbn : string -> ZxcvbnResult.

(** ** The entropy model *)

(** [hundredths n c] is the integer nearest to [100 * n * log2 c]: twice
    that real lies between [2 * h - 1] and [2 * h + 1]. *)
Lemma hundredths_bracket (n c : Z) :
  0 <= n -> 1 <= c ->
  2 ^ (2 * hundredths n c - 1) <= c ^ (200 * n)
  < 2 ^ (2 * hundredths n c + 1).
Proof.
  intros Hn Hc. unfold hundredths.
  set (X := c ^ (200 * n)).
  assert (HX : 0 < X) by (apply Z.pow_pos_nonneg; lia).
  pose proof (Z.log2_spec X HX) as [Hlo Hhi].
  pose proof (Z.log2_nonneg X) as Hl.
  set (L := Z.log2 X) in *.
  pose proof (Z.div_mod (L + 1) 2 ltac:(lia)) as Hdm.
  pose proof (Z.mod_pos_bound (L + 1) 2 ltac:(lia)) as Hm.
  split.
  - apply Z.le_trans with (2 ^ L); [| exact Hlo].
    destruct (Z.eq_dec L 0) as [-> | Hne].
    + change ((0 + 1) / 2) with 0. simpl. lia.
    + apply Z.pow_le_mono_r; lia.
  - apply Z.lt_le_trans with (2 ^ Z.succ L); [exact Hhi |].
    apply Z.pow_le_mono_r; lia.
Qed.

Lemma hundredths_nonneg (n c : Z) : 0 <= hundredths n c.
Proof.
  unfold hundredths.
  pose proof (Z.log2_nonneg (c ^ (200 * n))).
  apply Z.div_pos; lia.
Qed.

Lemma calculate_entropy_nonneg (password : string) :
  0 <= calculate_entropy password.
Proof.
  unfold calculate_entropy.
  destruct (charset_size password =? 0); [lia | apply hundredths_nonneg].
Qed.

(** ** The score *)

Lemma calculate_score_range (password : string) :
  0 <= fst (calculate_score zxcvbn password) <= 100.
Proof.
  unfold calculate_score.
  destruct (String.eqb password ""); cbn [fst]; lia.
Qed.

Lemma sum_from (l : list Z) (a : Z) : fold_left Z.add l a = a + sum l.
Proof.
  unfold sum. revert a.
  induction l as [| x l IH]; intros a; cbn [fold_left].
  - lia.
  - rewrite IH, (IH (0 + x)). lia.
Qed.

Lemma diversity_points (d : dict bool) :
  sum (map (fun _ : bool => 5) (filter (fun value => value) (values d)))
  = Spec.diversity_component d.
Proof.
  unfold Spec.diversity_component.
  induction (values d) as [| b l IH].
  - reflexivity.
  - destruct b; cbn [filter map count_occ].
    + unfold sum in *. cbn [fold_left]. rewrite sum_from.
      unfold sum. rewrite IH.
      destruct (bool_dec true true); [| congruence].
      rewrite Nat2Z.inj_succ. lia.
    + destruct (bool_dec false true); [discriminate | exact IH].
Qed.

Lemma penalties_table (k : string) : get penalties k 0 = Spec.penalty_of k.
Proof.
  unfold get, penalties, Spec.penalty_of. cbn [get_opt].
  repeat match goal with
  | |- context [String.eqb ?a k] =>
      rewrite (String.eqb_sym a k); destruct (String.eqb k a)
  end; reflexivity.
Qed.

Lemma apply_penalties_sum (patterns : dict bool) (s : Z) :
  apply_penalties patterns s = s + Spec.pattern_penalties patterns.
Proof.
  unfold apply_penalties. revert s.
  induction patterns as [| [k b] p IH]; intros s; cbn [fold_left].
  - cbn. lia.
  - rewrite IH.
    change (Spec.pattern_penalties ((k, b) :: p))
      with ((if b then Spec.penalty_of k else 0) + Spec.pattern_penalties p).
    destruct b; [rewrite penalties_table |]; lia.
Qed.

Lemma strength_of_label (s : Z) : strength_of s = Spec.label s.
Proof.
  unfold strength_of, Spec.label.
  rewrite !Z.geb_leb. reflexivity.
Qed.

Lemma clamp_max_min (x : Z) : Z.max 0 (Z.min 100 x) = Spec.clamp x.
Proof.
  unfold Spec.clamp.
  destruct (Z.ltb_spec x 0); [lia |].
  destruct (Z.ltb_spec 100 x); lia.
Qed.

Lemma length_points (n : Z) :
  0 <= n ->
  (if n >=? 16 then 0 + 30
   else if n >=? 12 then 0 + 25
   else if n >=? 8 then 0 + 15
   else 0 + Z.max 0 (n * 2))
  = Spec.length_component n.
Proof.
  intros Hn. unfold Spec.length_component. rewrite !Z.geb_leb.
  destruct (Z.leb_spec 16 n); [reflexivity |].
  destruct (Z.leb_spec 12 n); [reflexivity |].
  destruct (Z.leb_spec 8 n); [reflexivity | lia].
Qed.

Lemma entropy_points (e s : Z) :
  0 <= e ->
  (if e >=? 6000 then s + 30
   else if e >=? 4000 then s + 20
   else if e >=? 2500 then s + 10
   else s + Z.max 0 (Z.quot e 200))
  = s + Spec.entropy_component e.
Proof.
  intros He. unfold Spec.entropy_component. rewrite !Z.geb_leb.
  destruct (Z.leb_spec 6000 e); [reflexivity |].
  destruct (Z.leb_spec 4000 e); [reflexivity |].
  destruct (Z.leb_spec 2500 e); [reflexivity |].
  rewrite Z.quot_div_nonneg by lia.
  pose proof (Z.div_pos e 200 He ltac:(lia)). lia.
Qed.

Lemma len_nonneg (password : string) : 0 <= len password.
Proof. unfold len. lia. Qed.

Lemma calculate_score_nonempty (password : string) :
  password <> "" ->
  calculate_score zxcvbn password =
  let s :=
    Spec.clamp
      (Spec.length_component (len password)
       + Spec.entropy_component (calculate_entropy password)
       + Spec.diversity_component (get_character_diversity password)
       + Spec.pattern_penalties (check_patterns password)
       + 4 * zx_score (zxcvbn password)) in
  (s, Spec.label s).
Proof.
  intros Hne. unfold calculate_score.
  destruct (String.eqb_spec password "") as [E | _]; [contradiction |].
  cbv zeta.
  rewrite length_points by apply len_nonneg.
  rewrite entropy_points by apply calculate_entropy_nonneg.
  rewrite diversity_points, apply_penalties_sum.
  rewrite clamp_max_min, strength_of_label.
  replace (zx_score (zxcvbn password) * 4)
    with (4 * zx_score (zxcvbn password)) by lia.
  reflexivity.
Qed.

(** ** Recommendations *)

Lemma generate_recommendations_nonempty
    (password : string) (patterns diversity : dict bool)
    (recs : list string) :
  generate_recommendations password patterns diversity = Ok recs ->
  recs <> [].
Proof.
  unfold generate_recommendations, rbind.
  repeat match goal with
  | |- context [getitem ?d ?k] => destruct (getitem d k)
  | |- Raise _ = Ok _ -> _ => discriminate
  end.
  match goal with
  | |- context [match ?l with [] => _ | _ => _ end] => destruct l
  end; intros H; injection H as <-; discriminate.
Qed.

Lemma generate_recommendations_flags
    (password : string) (b1 b2 b3 b4 b5 b6 d1 d2 d3 d4 d5 : bool) :
  exists recs,
    generate_recommendations password
      [ ("sequential_numbers", b1); ("sequential_letters", b2);
        ("repeated_characters", b3); ("keyboard_pattern", b4);
        ("common_word", b5); ("date_pattern", b6) ]
      [ ("has_lowercase", d1); ("has_uppercase", d2); ("has_numbers", d3);
        ("has_symbols", d4); ("has_spaces", d5) ]
    = Ok recs.
Proof. eexists. reflexivity. Qed.

Lemma generate_recommendations_total (password : string) :
  exists recs,
    generate_recommendations password (check_patterns password)
      (get_character_diversity password) = Ok recs
    /\ recs <> [].
Proof.
  destruct (generate_recommendations_flags password
    (Re.search re_sequential_numbers (lower (chars password)))
    (Re.search re_sequential_letters (lower (chars password)))
    (Re.search_repeated (chars password))
    (existsb (fun pattern => contains (chars pattern) (lower (chars password)))
             keyboard_patterns)
    (existsb (String.eqb (str (lower (chars password)))) common_passwords)
    (Re.search re_date (chars password))
    (Re.search re_lower (chars password))
    (Re.search re_upper (chars password))
    (Re.search re_digit (chars password))
    (Re.search re_symbol (chars password))
    (mem " " (chars password))) as [recs E].
  exists recs. split; [exact E |].
  exact (generate_recommendations_nonempty _ _ _ _ E).
Qed.

Lemma generate_recommendations_great
    (password : string) (d5 : bool) :
  12 <= len password ->
  generate_recommendations password
    [ ("sequential_numbers", false); ("sequential_letters", false);
      ("repeated_characters", false); ("keyboard_pattern", false);
      ("common_word", false); ("date_pattern", false) ]
    [ ("has_lowercase", true); ("has_uppercase", true); ("has_numbers", true);
      ("has_symbols", true); ("has_spaces", d5) ]
  = Ok [great_password].
Proof.
  intros Hlen.
  unfold generate_recommendations.
  destruct (Z.ltb_spec (len password) 12) as [H | _]; [lia |].
  reflexivity.
Qed.

(** ** The facade *)

Lemma analyze_ok (password : string) :
  exists recs,
    generate_recommendations password (check_patterns password)
      (get_character_diversity password) = Ok recs
    /\ recs <> []
    /\ analyze zxcvbn password =
       Ok {| password_length := len password;
             score := fst (calculate_score zxcvbn password);
             strength := snd (calculate_score zxcvbn password);
             entropy_bits := calculate_entropy password;
             patterns_found := check_patterns password;
             character_diversity := get_character_diversity password;
             crack_time_estimates :=
               [ ("offline_slow",
                   offline_slow_hashing_1e4_per_second
                     (crack_times_display (zxcvbn password)));
                 ("offline_fast",
                   offline_fast_hashing_1e10_per_second
                     (crack_times_display (zxcvbn password)));
                 ("online_throttled",
                   online_throttling_100_per_hour
                     (crack_times_display (zxcvbn password)));
                 ("online_unthrottled",
                   online_no_throttling_10_per_second
                     (crack_times_display (zxcvbn password))) ];
             recommendations := recs;
             zxcvbn_score := zx_score (zxcvbn password);
             warning :=
               match feedback (zxcvbn password) with
               | Some fb =>
                   match fb_warning fb with Some w => w | None => "" end
               | None => ""
               end;
             suggestions :=
               match feedback (zxcvbn password) with
               | Some fb =>
                   match fb_suggestions fb with Some l => l | None => [] end
               | None => []
               end |}.
Proof.
  destruct (generate_recommendations_total password) as [recs [E Hne]].
  exists recs. split; [exact E |]. split; [exact Hne |].
  unfold analyze.
  destruct (calculate_score zxcvbn password) as [sc st].
  cbv zeta. rewrite E. reflexivity.
Qed.

(** ** Claims about the analyzer *)

(** C1: for every password the composite score that [calculate_score]
    returns, and that [analyze] reports, is an integer between 0 and 100,
    and the entropy that [calculate_entropy] returns is at least 0. *)
Theorem score_and_entropy_bounds (password : string) :
  0 <= fst (calculate_score zxcvbn password) <= 100
  /\ (exists report,
        analyze zxcvbn password = Ok report
        /\ 0 <= score report <= 100
        /\ 0 <= entropy_bits report)
  /\ 0 <= calculate_entropy password.
Proof.
  split; [apply calculate_score_range |].
  split; [| apply calculate_entropy_nonneg].
  destruct (analyze_ok password) as [recs [_ [_ E]]].
  eexists. split; [exact E |]. cbn [score entropy_bits].
  split; [apply calculate_score_range | apply calculate_entropy_nonneg].
Qed.

(** C2: the empty password has score 0 and the label "Empty", which is
    none of the five labels of a non-empty password; every pattern flag
    and every diversity flag of its report is false. *)
Theorem empty_password_report :
  calculate_score zxcvbn "" = (0, "Empty")
  /\ (forall s, strength_of s <> "Empty")
  /\ check_patterns "" =
     [ ("sequential_numbers", false); ("sequential_letters", false);
       ("repeated_characters", false); ("keyboard_pattern", false);
       ("common_word", false); ("date_pattern", false) ]
  /\ get_character_diversity "" =
     [ ("has_lowercase", false); ("has_uppercase", false);
       ("has_numbers", false); ("has_symbols", false);
       ("has_spaces", false) ]
  /\ exists report,
       analyze zxcvbn "" = Ok report
       /\ score report = 0
       /\ strength report = "Empty"
       /\ Forall (fun flag => flag = false) (values (patterns_found report))
       /\ Forall (fun flag => flag = false)
                 (values (character_diversity report)).
Proof.
  split; [reflexivity |].
  split.
  { intros s. unfold strength_of.
    repeat match goal with
    | |- context [if ?c then _ else _] => destruct c
    end; discriminate. }
  split; [reflexivity |].
  split; [reflexivity |].
  destruct (analyze_ok "") as [recs [_ [_ E]]].
  eexists. split; [exact E |].
  cbn [score strength patterns_found character_diversity].
  split; [reflexivity |]. split; [reflexivity |].
  split; repeat constructor.
Qed.

(** C4: for a non-empty password the composite score is the sum of the
    length component, the entropy component, 5 points per true diversity
    flag, the penalties of the matched patterns and 4 times the estimator's
    score, clamped to 0..100, and the label is the one the thresholds 80,
    60, 40 and 20 give. *)
Theorem composite_score_formula (password : string) :
  password <> "" ->
  calculate_score zxcvbn password =
  let s :=
    Spec.clamp
      (Spec.length_component (len password)
       + Spec.entropy_component (calculate_entropy password)
       + Spec.diversity_component (get_character_diversity password)
       + Spec.pattern_penalties (check_patterns password)
       + 4 * zx_score (zxcvbn password)) in
  (s, Spec.label s).
Proof. exact (calculate_score_nonempty password). Qed.

(** C8, as amended: no call of [generate_recommendations] returns an empty
    list, the call on a password's own findings always returns, and for a
    password of at least 12 characters that has an uppercase letter, a
    lowercase letter, a digit and a symbol (the four diversity flags the
    function reads: the space flag is not one of them) and whose pattern
    flags are all false the list is exactly the affirmative message. *)
Theorem recommendations_never_empty (password : string) :
  (forall patterns diversity recs,
     generate_recommendations password patterns diversity = Ok recs ->
     recs <> [])
  /\ exists recs,
       generate_recommendations password (check_patterns password)
         (get_character_diversity password) = Ok recs
       /\ recs <> []
       /\ (12 <= len password ->
           getitem (get_character_diversity password) "has_uppercase"
           = Ok true ->
           getitem (get_character_diversity password) "has_lowercase"
           = Ok true ->
           getitem (get_character_diversity password) "has_numbers"
           = Ok true ->
           getitem (get_character_diversity password) "has_symbols"
           = Ok true ->
           Forall (fun flag => flag = false)
                  (values (check_patterns password)) ->
           recs = [great_password]).
Proof.
  split; [apply generate_recommendations_nonempty |].
  destruct (generate_recommendations_total password) as [recs [E Hne]].
  exists recs. split; [exact E |]. split; [exact Hne |].
  intros Hlen Hu Hl Hd Hs Hpat.
  assert (Hinj : forall b : bool, @Ok bool b = Ok true -> b = true)
    by (intros b Hb; now injection Hb).
  change (getitem _ "has_uppercase")
    with (@Ok bool (Re.search re_upper (chars password))) in Hu.
  change (getitem _ "has_lowercase")
    with (@Ok bool (Re.search re_lower (chars password))) in Hl.
  change (getitem _ "has_numbers")
    with (@Ok bool (Re.search re_digit (chars password))) in Hd.
  change (getitem _ "has_symbols")
    with (@Ok bool (Re.search re_symbol (chars password))) in Hs.
  apply Hinj in Hu, Hl, Hd, Hs. clear Hinj.
  revert E Hpat.
  unfold check_patterns, get_character_diversity, values.
  cbn [map snd].
  intros E Hpat.
  rewrite Hu, Hl, Hd, Hs in E.
  repeat match goal with
  | H : Forall _ (_ :: _) |- _ =>
      let H' := fresh "Hflag" in
      pose proof (Forall_inv H) as H'; cbv beta in H';
      rewrite H' in E; clear H'; apply Forall_inv_tail in H
  end.
  rewrite (generate_recommendations_great password _ Hlen) in E.
  congruence.
Qed.

End AnalyzerFacts.

(** ** The facade and the estimator's exceptions *)

Lemma raising_calculate_score
    (zxcvbn : string -> result PasswordAnalyzer.ZxcvbnResult)
    (password : string) :
  PasswordAnalyzer.Raising.calculate_score zxcvbn password
  = if String.eqb password "" then Ok (0, "Empty")
    else match zxcvbn password with
         | Ok estimate =>
             Ok (PasswordAnalyzer.calculate_score (fun _ => estimate)
                   password)
         | Raise e => Raise e
         end.
Proof.
  unfold PasswordAnalyzer.Raising.calculate_score,
    PasswordAnalyzer.calculate_score.
  destruct (String.eqb password ""); [reflexivity |].
  destruct (zxcvbn password); reflexivity.
Qed.

Lemma raising_analyze_raises
    (zxcvbn : string -> result PasswordAnalyzer.ZxcvbnResult)
    (password : string) (e : exn) :
  zxcvbn password = Raise e ->
  PasswordAnalyzer.Raising.analyze zxcvbn password = Raise e.
Proof.
  intros E. unfold PasswordAnalyzer.Raising.analyze.
  rewrite raising_calculate_score, E.
  destruct (String.eqb password ""); reflexivity.
Qed.

Lemma raising_analyze_returns
    (zxcvbn : string -> result PasswordAnalyzer.ZxcvbnResult)
    (password : string) (estimate : PasswordAnalyzer.ZxcvbnResult) :
  zxcvbn password = Ok estimate ->
  PasswordAnalyzer.Raising.analyze zxcvbn password
  = PasswordAnalyzer.analyze (fun _ => estimate) password.
Proof.
  intros E.
  unfold PasswordAnalyzer.Raising.analyze, PasswordAnalyzer.analyze.
  rewrite raising_calculate_score, E.
  unfold PasswordAnalyzer.calculate_score.
  destruct (String.eqb password ""); reflexivity.
Qed.

(** C3, as amended: [analyze] raises exactly when the guess estimator, which
    it calls unguarded, raises on the password, and then with the
    estimator's exception; on every password on which the estimator
    returns, the empty one included, it returns a report with every field
    filled in: the length, the score and label of [calculate_score], the
    entropy, the six pattern flags, the five diversity flags, the four
    crack-time strings, a non-empty list of recommendations and the
    estimator's score. *)
Theorem analyze_fails_with_the_estimator
    (zxcvbn : string -> result PasswordAnalyzer.ZxcvbnResult)
    (password : string) :
  match zxcvbn password with
  | Raise e => PasswordAnalyzer.Raising.analyze zxcvbn password = Raise e
  | Ok estimate =>
      exists report,
        PasswordAnalyzer.Raising.analyze zxcvbn password = Ok report
        /\ PasswordAnalyzer.password_length report = Py.len password
        /\ (PasswordAnalyzer.score report, PasswordAnalyzer.strength report)
           = PasswordAnalyzer.calculate_score (fun _ => estimate) password
        /\ PasswordAnalyzer.Raising.calculate_score zxcvbn password
           = Ok (PasswordAnalyzer.score report,
                 PasswordAnalyzer.strength report)
        /\ PasswordAnalyzer.entropy_bits report
           = PasswordAnalyzer.calculate_entropy password
        /\ Py.keys (PasswordAnalyzer.patterns_found report) =
           [ "sequential_numbers"; "sequential_letters";
             "repeated_characters"; "keyboard_pattern"; "common_word";
             "date_pattern" ]
        /\ Py.keys (PasswordAnalyzer.character_diversity report) =
           [ "has_lowercase"; "has_uppercase"; "has_numbers"; "has_symbols";
             "has_spaces" ]
        /\ Py.keys (PasswordAnalyzer.crack_time_estimates report) =
           [ "offline_slow"; "offline_fast"; "online_throttled";
             "online_unthrottled" ]
        /\ PasswordAnalyzer.recommendations report <> []
        /\ PasswordAnalyzer.zxcvbn_score report
           = PasswordAnalyzer.zx_score estimate
  end.
Proof.
  destruct (zxcvbn password) as [estimate | e] eqn:E.
  - rewrite (raising_analyze_returns zxcvbn password estimate E).
    destruct (analyze_ok (fun _ => estimate) password)
      as [recs [_ [Hne Eok]]].
    eexists. split; [exact Eok |].
    cbn [PasswordAnalyzer.password_length PasswordAnalyzer.score
         PasswordAnalyzer.strength PasswordAnalyzer.entropy_bits
         PasswordAnalyzer.patterns_found
         PasswordAnalyzer.character_diversity
         PasswordAnalyzer.crack_time_estimates
         PasswordAnalyzer.recommendations PasswordAnalyzer.zxcvbn_score].
    split; [reflexivity |].
    split; [now destruct (PasswordAnalyzer.calculate_score _ password) |].
    split.
    { rewrite raising_calculate_score, E.
      unfold PasswordAnalyzer.calculate_score.
      destruct (String.eqb password ""); reflexivity. }
    repeat split; try reflexivity. exact Hne.
  - exact (raising_analyze_raises zxcvbn password e E).
Qed.

(** With an estimator that refuses passwords of more than 72 characters,
    [analyze] raises on a password of 73 characters and returns no
    report. *)
Lemma long_password_raises :
  let password :=
    "aaaaaaaaaaaaaaaaaaaaaaaaaaaaaaaaaaaaaaaaaaaaaaaaaaaaaaaaaaaaaaaaaaaaaaaaa"
  in
  Py.len password = 73
  /\ PasswordAnalyzer.Raising.analyze (Sample.length_limited_estimator 2)
       password
     = Raise (ValueError "Password exceeds max length of 72 characters.")
  /\ ~ (exists report,
          PasswordAnalyzer.Raising.analyze
            (Sample.length_limited_estimator 2) password = Ok report).
Proof.
  cbv zeta. split; [reflexivity |].
  assert (E : PasswordAnalyzer.Raising.analyze
                (Sample.length_limited_estimator 2)
    "aaaaaaaaaaaaaaaaaaaaaaaaaaaaaaaaaaaaaaaaaaaaaaaaaaaaaaaaaaaaaaaaaaaaaaaaa"
              = Raise (ValueError
                         "Password exceeds max length of 72 characters."))
    by (apply raising_analyze_raises; reflexivity).
  split; [exact E |].
  intros [report H]. rewrite E in H. discriminate.
Qed.

(** The password "aB1! " has all five diversity flags true and no pattern
    flag, yet its only recommendation is to lengthen it: the affirmative
    message is not returned. *)
Lemma short_password_not_affirmed :
  PasswordAnalyzer.get_character_diversity "aB1! " =
    [ ("has_lowercase", true); ("has_uppercase", true); ("has_numbers", true);
      ("has_symbols", true); ("has_spaces", true) ]
  /\ Py.values (PasswordAnalyzer.check_patterns "aB1! ") =
     [false; false; false; false; false; false]
  /\ PasswordAnalyzer.generate_recommendations "aB1! "
       (PasswordAnalyzer.check_patterns "aB1! ")
       (PasswordAnalyzer.get_character_diversity "aB1! ")
     = Ok ["Increase password length to at least 12 characters"]
  /\ PasswordAnalyzer.generate_recommendations "aB1! "
       (PasswordAnalyzer.check_patterns "aB1! ")
       (PasswordAnalyzer.get_character_diversity "aB1! ")
     <> Ok [PasswordAnalyzer.great_password].
Proof.
  repeat split; try reflexivity.
  vm_compute. discriminate.
Qed.

Lemma composite_score_formula_witness :
  PasswordAnalyzer.calculate_score (Sample.estimator 2)
    "aB1!" = (46, "Moderate").
Proof.
  rewrite (composite_score_formula (Sample.estimator 2)
             "aB1!" ltac:(discriminate)).
  vm_compute. reflexivity.
Defined.

Lemma recommendations_never_empty_witness :
  PasswordAnalyzer.generate_recommendations "MyS3cur3P@ssw0rd!"
    (PasswordAnalyzer.check_patterns "MyS3cur3P@ssw0rd!")
    (PasswordAnalyzer.get_character_diversity "MyS3cur3P@ssw0rd!")
  = Ok [PasswordAnalyzer.great_password].
Proof.
  destruct (recommendations_never_empty "MyS3cur3P@ssw0rd!")
    as [_ [recs [E [_ H]]]].
  rewrite E. f_equal. apply H.
  - vm_compute. discriminate.
  - reflexivity.
  - reflexivity.
  - reflexivity.
  - reflexivity.
  - vm_compute. repeat constructor.
Defined.

(** * Properties of the generator *)

Section GeneratorFacts.

Import Py PasswordGenerator.

(** ** Strings and lists of characters *)

Lemma chars_str (l : list ascii) : chars (str l) = l.
Proof. apply list_ascii_of_string_of_list_ascii. Qed.

Lemma length_str (l : list ascii) : String.length (str l) = List.length l.
Proof.
  induction l as [| a l IH]; cbn; [reflexivity | now rewrite <- IH].
Qed.

Lemma mem_In (c : ascii) (l : list ascii) : mem c l = true <-> In c l.
Proof.
  unfold mem. rewrite existsb_exists. split.
  - intros [x [Hx E]]. apply Ascii.eqb_eq in E. now subst.
  - intros H. exists c. split; [exact H | apply Ascii.eqb_refl].
Qed.

Lemma remove_char_incl (c : ascii) (l : list ascii) :
  incl (remove_char c l) l.
Proof. intros x Hx. apply filter_In in Hx. tauto. Qed.

Lemma exclude_filter (excl pool : list ascii) :
  fold_left (fun pool char => remove_char char pool) excl pool
  = filter (fun c => negb (mem c excl)) pool.
Proof.
  revert pool. induction excl as [| e excl IH]; intros pool; cbn [fold_left].
  - induction pool as [| a pool IHp]; cbn; [reflexivity |].
    f_equal. exact IHp.
  - rewrite IH. unfold remove_char.
    induction pool as [| a pool IHp]; cbn [filter]; [reflexivity |].
    cbn [mem existsb]. fold (mem a excl).
    rewrite (Ascii.eqb_sym a e).
    destruct (Ascii.eqb e a); cbn [negb orb]; [exact IHp |].
    cbn [filter]. destruct (mem a excl); cbn [negb]; now rewrite IHp.
Qed.

(** ** Draws *)

Lemma bind_ok {A B : Type} (c : M A) (k : A -> M B) (w w' : world) (a : A) :
  c w = Ok (a, w') -> bind c k w = k a w'.
Proof. intros E. unfold bind. now rewrite E. Qed.

Lemma bind_raise {A B : Type} (c : M A) (k : A -> M B) (w : world) (e : exn) :
  c w = Raise e -> bind c k w = Raise e.
Proof. intros E. unfold bind. now rewrite E. Qed.

Lemma secrets_choice_ok {A : Type} (seq : list A) (w : world) :
  seq <> [] ->
  exists c w', secrets_choice seq w = Ok (c, w') /\ In c seq.
Proof.
  intros Hne. destruct seq as [| a seq]; [contradiction |].
  unfold secrets_choice, bind, secrets_randbelow, next, index.
  set (i := Nat.modulo _ _).
  assert (Hi : (i < List.length (a :: seq))%nat)
    by (apply Nat.mod_upper_bound; discriminate).
  destruct (nth_error (a :: seq) i) as [c |] eqn:E.
  - do 2 eexists. split; [reflexivity |]. eapply nth_error_In, E.
  - apply nth_error_None in E. lia.
Qed.

(** ** The shuffle permutes *)

Lemma set_nth_perm {A : Type} (t : list A) (j : nat) (a b : A) :
  nth_error t j = Some b -> Permutation (b :: set_nth j a t) (a :: t).
Proof.
  revert j. induction t as [| c t IH]; intros [| j] H; cbn in H;
    try discriminate.
  - injection H as ->. cbn. apply perm_swap.
  - cbn [set_nth].
    eapply perm_trans; [apply perm_swap |].
    eapply perm_trans; [apply perm_skip, IH, H |].
    apply perm_swap.
Qed.

Lemma swap_perm {A : Type} (x : list A) (i j : nat) (xi xj : A) :
  nth_error x i = Some xi -> nth_error x j = Some xj ->
  Permutation (set_nth j xi (set_nth i xj x)) x.
Proof.
  revert i j. induction x as [| a t IH]; intros [| i] [| j] Hi Hj;
    cbn in Hi, Hj; try discriminate; cbn [set_nth].
  - injection Hi as ->. injection Hj as ->. apply Permutation_refl.
  - injection Hi as ->. now apply set_nth_perm.
  - injection Hj as ->. now apply set_nth_perm.
  - apply perm_skip. now apply IH.
Qed.

Lemma swap_ok {A : Type} (x : list A) (i j : nat) (w : world) :
  (i < List.length x)%nat -> (j < List.length x)%nat ->
  exists x', swap i j x w = Ok (x', w) /\ Permutation x x'.
Proof.
  intros Hi Hj. unfold swap, bind, index.
  destruct (nth_error x j) as [xj |] eqn:Ej;
    [| apply nth_error_None in Ej; lia].
  destruct (nth_error x i) as [xi |] eqn:Ei;
    [| apply nth_error_None in Ei; lia].
  eexists. split; [reflexivity |].
  apply Permutation_sym. now apply swap_perm.
Qed.

Lemma shuffle_from_ok {A : Type} (i : nat) (x : list A) (w : world) :
  (i < List.length x)%nat \/ i = 0%nat ->
  exists x' w', shuffle_from i x w = Ok (x', w') /\ Permutation x x'.
Proof.
  revert x w. induction i as [| i IH]; intros x w Hi.
  - exists x, w. split; [reflexivity | apply Permutation_refl].
  - destruct Hi as [Hi | Hi]; [| discriminate].
    cbn [shuffle_from]. unfold bind at 1.
    unfold random_randbelow, next.
    set (j := Nat.modulo _ _). set (w1 := Build_world _ _).
    assert (Hj : (j < S i + 1)%nat)
      by (apply Nat.mod_upper_bound; lia).
    destruct (swap_ok x (S i) j w1 Hi ltac:(lia)) as [x1 [E1 P1]].
    rewrite (bind_ok _ _ _ _ _ E1).
    destruct (IH x1 w1) as [x' [w' [E' P']]].
    { left. rewrite <- (Permutation_length P1). lia. }
    exists x', w'. split; [exact E' |].
    eapply perm_trans; eassumption.
Qed.

Lemma random_shuffle_ok {A : Type} (x : list A) (w : world) :
  exists x' w', random_shuffle x w = Ok (x', w') /\ Permutation x x'.
Proof.
  unfold random_shuffle. apply shuffle_from_ok.
  destruct x as [| a x]; [right; reflexivity | left; cbn; lia].
Qed.

(** ** The fill loop *)

Lemma fill_ok (n : nat) (char_pool password : list ascii) (w : world) :
  char_pool <> [] ->
  exists extra w',
    fill n char_pool password w = Ok (password ++ extra, w')
    /\ List.length extra = n
    /\ Forall (fun c => In c char_pool) extra.
Proof.
  intros Hne. revert password w.
  induction n as [| n IH]; intros password w.
  - exists [], w. rewrite app_nil_r. repeat split. constructor.
  - cbn [fill].
    destruct (secrets_choice_ok char_pool w Hne) as [c [w1 [E1 Hc]]].
    rewrite (bind_ok _ _ _ _ _ E1).
    destruct (IH (password ++ [c]) w1) as [extra [w' [E' [Hlen Hall]]]].
    exists (c :: extra), w'. split.
    + rewrite E'. now rewrite <- app_assoc.
    + split; [cbn; now rewrite Hlen | now constructor].
Qed.

(** ** The classes and the pool of [generate_random] *)

Lemma filter_andb {A : Type} (f g : A -> bool) (l : list A) :
  filter (fun c => f c && g c) l = filter g (filter f l).
Proof.
  induction l as [| a l IH]; cbn [filter]; [reflexivity |].
  destruct (f a); cbn [andb filter]; [| exact IH].
  destruct (g a); now rewrite IH.
Qed.

Lemma code_pool_spec
    (ul uu ud us amb : bool) (exclude_chars : string) :
  fold_left (fun pool char => remove_char char pool) (chars exclude_chars)
    (((([] ++ Spec.selected ul
                (if amb then remove_char "o" (remove_char "l" lowercase)
                 else lowercase))
       ++ Spec.selected uu
            (if amb then remove_char "I" (remove_char "O" uppercase)
             else uppercase))
      ++ Spec.selected ud
           (if amb then remove_char "1" (remove_char "0" digits)
            else digits))
     ++ Spec.selected us symbols)
  = Spec.selection_pool ul uu ud us amb exclude_chars.
Proof.
  rewrite exclude_filter. unfold Spec.selection_pool.
  rewrite (filter_andb (fun c => negb (amb && mem c Spec.ambiguous))
                       (fun c => negb (mem c (chars exclude_chars)))).
  f_equal.
  destruct ul, uu, ud, us, amb; reflexivity.
Qed.

Lemma add_class_ok
    (use : bool) (class char_pool required_chars : list ascii) (w : world) :
  class <> [] ->
  exists c w',
    add_class use class (char_pool, required_chars) w
    = Ok ((char_pool ++ Spec.selected use class,
           required_chars ++ Spec.selected use [c]), w')
    /\ In c class.
Proof.
  intros Hne. unfold add_class. destruct use; cbn [Spec.selected].
  - destruct (secrets_choice_ok class w Hne) as [c [w' [E Hc]]].
    exists c, w'. split; [| exact Hc].
    now rewrite (bind_ok _ _ _ _ _ E).
  - destruct class as [| c class]; [contradiction |].
    exists c, w. rewrite !app_nil_r. split; [reflexivity | now left].
Qed.

Lemma lower_class (amb : bool) :
  let class := if amb then remove_char "o" (remove_char "l" lowercase)
               else lowercase in
  class <> [] /\ incl class lowercase.
Proof.
  destruct amb; cbv zeta; split; try discriminate.
  - intros c Hc. eapply remove_char_incl, remove_char_incl, Hc.
  - apply incl_refl.
Qed.

Lemma upper_class (amb : bool) :
  let class := if amb then remove_char "I" (remove_char "O" uppercase)
               else uppercase in
  class <> [] /\ incl class uppercase.
Proof.
  destruct amb; cbv zeta; split; try discriminate.
  - intros c Hc. eapply remove_char_incl, remove_char_incl, Hc.
  - apply incl_refl.
Qed.

Lemma digit_class (amb : bool) :
  let class := if amb then remove_char "1" (remove_char "0" digits)
               else digits in
  class <> [] /\ incl class digits.
Proof.
  destruct amb; cbv zeta; split; try discriminate.
  - intros c Hc. eapply remove_char_incl, remove_char_incl, Hc.
  - apply incl_refl.
Qed.

(** ** The three outcomes of [generate_random] *)

Ltac step_class H c w' E Hc :=
  match goal with
  | |- context [bind (add_class ?u ?cls (?p, ?r)) ?k ?w] =>
      destruct (add_class_ok u cls p r w H) as [c [w' [E Hc]]];
      rewrite (bind_ok _ _ _ _ _ E); cbv beta
  end.

Lemma generate_random_short
    (n : Z) (ul uu ud us amb : bool) (excl : string) (w : world) :
  n < 4 ->
  generate_random n ul uu ud us amb excl w
  = Raise (ValueError "Password length must be at least 4 characters").
Proof.
  intros Hn. unfold generate_random.
  destruct (Z.ltb_spec n 4); [reflexivity | lia].
Qed.

(** The state after the four class blocks. *)
Lemma generate_random_classes
    (n : Z) (ul uu ud us amb : bool) (excl : string) (w : world) :
  4 <= n ->
  exists cl cu cd cs w1,
    In cl lowercase /\ In cu uppercase /\ In cd digits /\ In cs symbols
    /\ generate_random n ul uu ud us amb excl w
       = match Spec.selection_pool ul uu ud us amb excl with
         | [] =>
             Raise (ValueError
                      "No characters available with the specified criteria")
         | _ =>
             let required :=
               Spec.selected ul [cl] ++ Spec.selected uu [cu]
               ++ Spec.selected ud [cd] ++ Spec.selected us [cs] in
             (password <-
                fill (Z.to_nat (n - Z.of_nat (List.length required)))
                     (Spec.selection_pool ul uu ud us amb excl) required ;;
              password <- random_shuffle password ;;
              ret (str password))%gen w1
         end.
Proof.
  intros Hn. unfold generate_random.
  destruct (Z.ltb_spec n 4) as [H | _]; [lia |].
  destruct (lower_class amb) as [Hl Il].
  destruct (upper_class amb) as [Hu Iu].
  destruct (digit_class amb) as [Hd Id].
  step_class Hl cl w1 E1 H1.
  step_class Hu cu w2 E2 H2.
  step_class Hd cd w3 E3 H3.
  assert (Hs : symbols <> []) by discriminate.
  step_class Hs cs w4 E4 H4.
  exists cl, cu, cd, cs, w4.
  split; [apply Il, H1 |]. split; [apply Iu, H2 |].
  split; [apply Id, H3 |]. split; [exact H4 |].
  rewrite code_pool_spec.
  cbv zeta. rewrite <- !app_assoc. cbn [app].
  destruct (Spec.selection_pool ul uu ud us amb excl); reflexivity.
Qed.

Lemma generate_random_empty_pool
    (n : Z) (ul uu ud us amb : bool) (excl : string) (w : world) :
  4 <= n ->
  Spec.selection_pool ul uu ud us amb excl = [] ->
  generate_random n ul uu ud us amb excl w
  = Raise (ValueError "No characters available with the specified criteria").
Proof.
  intros Hn Hpool.
  destruct (generate_random_classes n ul uu ud us amb excl w Hn)
    as (cl & cu & cd & cs & w1 & _ & _ & _ & _ & E).
  rewrite E, Hpool. reflexivity.
Qed.

Lemma required_length (ul uu ud us : bool) (cl cu cd cs : ascii) :
  (List.length (Spec.selected ul [cl] ++ Spec.selected uu [cu]
                ++ Spec.selected ud [cd] ++ Spec.selected us [cs]) <= 4)%nat.
Proof. destruct ul, uu, ud, us; cbn; lia. Qed.

Lemma generate_random_run
    (n : Z) (ul uu ud us amb : bool) (excl : string) (w : world) :
  4 <= n ->
  Spec.selection_pool ul uu ud us amb excl <> [] ->
  exists cl cu cd cs extra shuffled w',
    generate_random n ul uu ud us amb excl w = Ok (str shuffled, w')
    /\ Permutation
         ((Spec.selected ul [cl] ++ Spec.selected uu [cu]
           ++ Spec.selected ud [cd] ++ Spec.selected us [cs]) ++ extra)
         shuffled
    /\ In cl lowercase /\ In cu uppercase /\ In cd digits /\ In cs symbols
    /\ Forall (fun c => In c (Spec.selection_pool ul uu ud us amb excl)) extra
    /\ Z.of_nat (List.length shuffled) = n.
Proof.
  intros Hn Hpool.
  destruct (generate_random_classes n ul uu ud us amb excl w Hn)
    as (cl & cu & cd & cs & w1 & Hl & Hu & Hd & Hs & E).
  rewrite E. clear E.
  remember (Spec.selection_pool ul uu ud us amb excl) as pool eqn:Epool.
  destruct pool as [| a pool]; [contradiction |].
  cbv zeta.
  set (required := Spec.selected ul [cl] ++ Spec.selected uu [cu]
                   ++ Spec.selected ud [cd] ++ Spec.selected us [cs]).
  destruct (fill_ok (Z.to_nat (n - Z.of_nat (List.length required)))
              (a :: pool) required w1 Hpool)
    as (extra & w2 & Efill & Hlen & Hall).
  rewrite (bind_ok _ _ _ _ _ Efill).
  destruct (random_shuffle_ok (required ++ extra) w2)
    as (shuffled & w3 & Eshuffle & Hperm).
  rewrite (bind_ok _ _ _ _ _ Eshuffle).
  exists cl, cu, cd, cs, extra, shuffled, w3.
  split; [reflexivity |]. split; [exact Hperm |].
  repeat (split; [assumption |]).
  rewrite <- (Permutation_length Hperm), length_app, Hlen.
  pose proof (required_length ul uu ud us cl cu cd cs) as Hreq.
  fold required in Hreq. lia.
Qed.

Lemma present_after_shuffle
    (class required extra shuffled : list ascii) (c : ascii) :
  Permutation (required ++ extra) shuffled ->
  In c required -> In c class ->
  Spec.has_char_of class (str shuffled).
Proof.
  intros Hperm Hreq Hclass. exists c. split; [| exact Hclass].
  rewrite chars_str. eapply Permutation_in; [exact Hperm |].
  apply in_or_app. now left.
Qed.

Lemma generate_random_classes_present
    (n : Z) (ul uu ud us amb : bool) (excl : string) (w : world) :
  4 <= n ->
  Spec.selection_pool ul uu ud us amb excl <> [] ->
  exists pw w',
    generate_random n ul uu ud us amb excl w = Ok (pw, w')
    /\ len pw = n
    /\ (ul = true -> Spec.has_char_of lowercase pw)
    /\ (uu = true -> Spec.has_char_of uppercase pw)
    /\ (ud = true -> Spec.has_char_of digits pw)
    /\ (us = true -> Spec.has_char_of symbols pw).
Proof.
  intros Hn Hpool.
  destruct (generate_random_run n ul uu ud us amb excl w Hn Hpool)
    as (cl & cu & cd & cs & extra & shuffled & w' & E & Hperm
        & Hl & Hu & Hd & Hs & _ & Hlen).
  exists (str shuffled), w'. split; [exact E |].
  split; [unfold len; now rewrite length_str |].
  repeat split; intros ->;
    (eapply present_after_shuffle; [exact Hperm | | eassumption]);
    cbn [Spec.selected]; repeat (apply in_or_app; (left; now left) || right);
    try now left.
Qed.

(** ** The pattern loop *)

Lemma pattern_char_ok (char : ascii) (password : list ascii) (w : world) :
  exists c w',
    pattern_char char password w = Ok (password ++ [c], w')
    /\ In c (Spec.substitution char).
Proof.
  unfold pattern_char, Spec.substitution.
  repeat match goal with
  | |- context [if Ascii.eqb char ?k then _ else _] =>
      destruct (Ascii.eqb char k)
  end;
  try match goal with
  | |- context [secrets_choice ?seq] =>
      let c := fresh "c" in
      let w' := fresh "w'" in
      let E := fresh "E" in
      let Hc := fresh "Hc" in
      destruct (secrets_choice_ok seq w ltac:(discriminate))
        as [c [w' [E Hc]]];
      exists c, w'; rewrite (bind_ok _ _ _ _ _ E);
      split; [reflexivity | exact Hc]
  end.
  exists char, w. split; [reflexivity | now left].
Qed.

Lemma custom_loop_ok (pattern password : list ascii) (w : world) :
  exists extra w',
    custom_loop pattern password w = Ok (password ++ extra, w')
    /\ Forall2 (fun p c => In c (Spec.substitution p)) pattern extra.
Proof.
  revert password w.
  induction pattern as [| char pattern IH]; intros password w.
  - exists [], w. rewrite app_nil_r. split; [reflexivity | constructor].
  - cbn [custom_loop].
    destruct (pattern_char_ok char password w) as [c [w1 [E1 Hc]]].
    rewrite (bind_ok _ _ _ _ _ E1).
    destruct (IH (password ++ [c]) w1) as [extra [w' [E' Hall]]].
    exists (c :: extra), w'. split.
    + rewrite E'. now rewrite <- app_assoc.
    + now constructor.
Qed.

Lemma generate_custom_pattern_ok (pattern : string) (w : world) :
  exists out w',
    generate_custom_pattern pattern w = Ok (str out, w')
    /\ Forall2 (fun p c => In c (Spec.substitution p)) (chars pattern) out.
Proof.
  unfold generate_custom_pattern.
  destruct (custom_loop_ok (chars pattern) [] w) as [out [w' [E Hall]]].
  rewrite (bind_ok _ _ _ _ _ E). cbn [app].
  exists out, w'. split; [reflexivity | exact Hall].
Qed.

Lemma length_chars (s : string) : List.length (chars s) = String.length s.
Proof.
  induction s as [| a s IH]; cbn; [reflexivity | now rewrite <- IH].
Qed.

(** ** Claims about the generator *)

(** C5: a Random request of length 16 with the four classes enabled and no
    excluded characters returns a string of exactly 16 characters with a
    lowercase letter, an uppercase letter, a digit and a symbol; and every
    Random generation that returns has the requested length and a
    character of each selected class. *)
Theorem random_password_shape :
  (forall (amb : bool) (w : world),
     exists pw w',
       generate_random 16 true true true true amb "" w = Ok (pw, w')
       /\ String.length pw = 16%nat
       /\ Spec.has_char_of lowercase pw
       /\ Spec.has_char_of uppercase pw
       /\ Spec.has_char_of digits pw
       /\ Spec.has_char_of symbols pw)
  /\ (forall (n : Z) (ul uu ud us amb : bool) (excl : string)
             (w : world) (pw : string) (w' : world),
        generate_random n ul uu ud us amb excl w = Ok (pw, w') ->
        len pw = n
        /\ (ul = true -> Spec.has_char_of lowercase pw)
        /\ (uu = true -> Spec.has_char_of uppercase pw)
        /\ (ud = true -> Spec.has_char_of digits pw)
        /\ (us = true -> Spec.has_char_of symbols pw)).
Proof.
  split.
  - intros amb w.
    destruct (generate_random_classes_present 16 true true true true amb "" w)
      as (pw & w' & E & Hlen & Hl & Hu & Hd & Hs).
    { lia. }
    { destruct amb; vm_compute; discriminate. }
    exists pw, w'. split; [exact E |].
    split; [unfold len in Hlen; lia |]. auto.
  - intros n ul uu ud us amb excl w pw w' E.
    destruct (Z.lt_ge_cases n 4) as [Hn | Hn].
    { rewrite generate_random_short in E by exact Hn. discriminate. }
    destruct (Spec.selection_pool ul uu ud us amb excl) eqn:Hpool.
    { rewrite generate_random_empty_pool in E by assumption. discriminate. }
    destruct (generate_random_classes_present n ul uu ud us amb excl w Hn)
      as (pw1 & w1 & E1 & H).
    { rewrite Hpool. discriminate. }
    rewrite E1 in E. injection E as <- <-. exact H.
Qed.

(** C6: Random generation raises [ValueError], the InvalidParameter
    condition, exactly when the length is below 4 or the selection pool is
    empty, and returns a password in every other case; so it raises for
    length 3 and when no class is selected. *)
Theorem random_generation_failures :
  (forall (n : Z) (ul uu ud us amb : bool) (excl : string) (w : world),
     match generate_random n ul uu ud us amb excl w with
     | Ok _ => 4 <= n /\ Spec.selection_pool ul uu ud us amb excl <> []
     | Raise (ValueError _) =>
         n < 4 \/ Spec.selection_pool ul uu ud us amb excl = []
     | Raise _ => False
     end)
  /\ (forall (ul uu ud us amb : bool) (excl : string) (w : world),
        exists msg,
          generate_random 3 ul uu ud us amb excl w = Raise (ValueError msg))
  /\ (forall (n : Z) (amb : bool) (excl : string) (w : world),
        exists msg,
          generate_random n false false false false amb excl w
          = Raise (ValueError msg)).
Proof.
  split; [| split].
  - intros n ul uu ud us amb excl w.
    destruct (Z.lt_ge_cases n 4) as [Hn | Hn].
    { rewrite generate_random_short by exact Hn. now left. }
    destruct (Spec.selection_pool ul uu ud us amb excl) eqn:Hpool.
    { rewrite generate_random_empty_pool by assumption. now right. }
    destruct (generate_random_run n ul uu ud us amb excl w Hn)
      as (cl & cu & cd & cs & extra & shuffled & w' & E & _).
    { rewrite Hpool. discriminate. }
    rewrite E. split; [exact Hn | discriminate].
  - intros. eexists. apply generate_random_short. lia.
  - intros n amb excl w.
    destruct (Z.lt_ge_cases n 4) as [Hn | Hn].
    + eexists. apply generate_random_short. exact Hn.
    + eexists. apply generate_random_empty_pool; [exact Hn | reflexivity].
Qed.

(** C7: for every pattern, Custom Pattern generation returns a string as
    long as the pattern whose every character is one the substitution map
    allows at its position (the pattern character itself when it is none
    of l, L, d, s, a and the star); for "LLLLdddd@@" the result has length 10, four
    uppercase letters, then four digits, then "@@". *)
Theorem custom_pattern_shape :
  (forall (pattern : string) (w : world),
     exists out w',
       generate_custom_pattern pattern w = Ok (out, w')
       /\ String.length out = String.length pattern
       /\ Forall2 (fun p c => In c (Spec.substitution p))
                  (chars pattern) (chars out))
  /\ (forall p : ascii,
        In p (chars "lLdsa*") \/ Spec.substitution p = [p])
  /\ (forall w : world,
        exists out w',
          generate_custom_pattern "LLLLdddd@@" w = Ok (out, w')
          /\ String.length out = 10%nat
          /\ Forall (fun c => In c uppercase) (chars (substring 0 4 out))
          /\ Forall (fun c => In c digits) (chars (substring 4 4 out))
          /\ substring 8 2 out = "@@").
Proof.
  split; [| split].
  - intros pattern w.
    destruct (generate_custom_pattern_ok pattern w) as [out [w' [E Hall]]].
    exists (str out), w'. split; [exact E |].
    rewrite chars_str, length_str. split; [| exact Hall].
    rewrite <- (Forall2_length Hall). apply length_chars.
  - intros p. unfold Spec.substitution.
    destruct (Ascii.eqb_spec p "l") as [-> | _]; [left; cbn; tauto |].
    destruct (Ascii.eqb_spec p "L") as [-> | _]; [left; cbn; tauto |].
    destruct (Ascii.eqb_spec p "d") as [-> | _]; [left; cbn; tauto |].
    destruct (Ascii.eqb_spec p "s") as [-> | _]; [left; cbn; tauto |].
    destruct (Ascii.eqb_spec p "a") as [-> | _]; [left; cbn; tauto |].
    destruct (Ascii.eqb_spec p "*") as [-> | _]; [left; cbn; tauto |].
    now right.
  - intros w.
    destruct (generate_custom_pattern_ok "LLLLdddd@@" w)
      as [out [w' [E Hall]]].
    exists (str out), w'. split; [exact E |].
    cbn [chars list_ascii_of_string] in Hall.
    repeat match goal with
    | H : Forall2 _ (_ :: _) _ |- _ => inversion H; subst; clear H
    | H : Forall2 _ [] _ |- _ => inversion H; subst; clear H
    end.
    repeat match goal with
    | H : In _ (Spec.substitution "@") |- _ => destruct H as [<- | []]
    end.
    change (Spec.substitution "L") with uppercase in *.
    change (Spec.substitution "d") with digits in *.
    split; [reflexivity |].
    cbn [chars list_ascii_of_string substring str string_of_list_ascii].
    split; [repeat (apply Forall_cons; [assumption |]); apply Forall_nil |].
    split; [repeat (apply Forall_cons; [assumption |]); apply Forall_nil |].
    reflexivity.
Qed.

(** ** The mandatory characters and the fill characters *)






End GeneratorFacts.

(** C9 does not hold of the code: the final permutation of
    [generate_random] is [random.shuffle], which reads the Mersenne
    Twister.  With the same draws from the secure source, two states of
    the Mersenne Twister give two different passwords, and a request of
    length 4 makes three calls of its [_randbelow]. *)
Theorem shuffle_reads_the_mersenne_twister :
  let run general :=
    PasswordGenerator.generate_random 4 true true true true false ""
      (Sample.world_of (fun n => n) general) in
  Sample.returned (run (fun _ => 0%nat)) = Ok "B2$a"
  /\ Sample.returned (run (fun _ => 1%nat)) = Ok "a2$B"
  /\ Sample.general_draws (run (fun _ => 0%nat)) = Some 3%nat.
Proof. vm_compute. repeat split. Qed.


Lemma random_password_shape_witness :
  let pw := "B2$a" in
  Py.len pw = 4
  /\ Spec.has_char_of PasswordGenerator.lowercase pw
  /\ Spec.has_char_of PasswordGenerator.uppercase pw
  /\ Spec.has_char_of PasswordGenerator.digits pw
  /\ Spec.has_char_of PasswordGenerator.symbols pw.
Proof.
  cbv zeta.
  destruct (proj2 random_password_shape 4 true true true true false ""
              (Sample.world_of (fun n => n) (fun _ => 0%nat)) "B2$a"
              {| PasswordGenerator.system_random :=
                   {| PasswordGenerator.draws := fun n => n;
                      PasswordGenerator.position := 4 |};
                 PasswordGenerator.mersenne_twister :=
                   {| PasswordGenerator.draws := fun _ => 0%nat;
                      PasswordGenerator.position := 3 |} |})
    as (Hlen & Hl & Hu & Hd & Hs).
  - vm_compute. reflexivity.
  - repeat split; auto.
Defined.


(** * Further properties of the generator *)

Section StrategyFacts.

Import Py PasswordGenerator Shape.

(** ** Comprehensions and digits *)

Lemma replicateM_ok {A : Type} (n : nat) (c : M A) (P : A -> Prop)
    (w : world) :
  (forall w0, exists a w1, c w0 = Ok (a, w1) /\ P a) ->
  exists l w',
    replicateM n c w = Ok (l, w') /\ List.length l = n /\ Forall P l.
Proof.
  intros Hc. revert w. induction n as [| n IH]; intros w.
  - exists [], w. repeat split. constructor.
  - cbn [replicateM].
    destruct (Hc w) as [a [w1 [E1 Pa]]].
    rewrite (bind_ok _ _ _ _ _ E1).
    destruct (IH w1) as [l [w' [E' [Hlen Hall]]]].
    rewrite (bind_ok _ _ _ _ _ E').
    exists (a :: l), w'. split; [reflexivity |].
    split; [cbn; now rewrite Hlen | now constructor].
Qed.

Lemma str_of_digit (n : nat) :
  (n < 10)%nat -> exists c, str_of_nat n = [c] /\ In c digits.
Proof.
  intros Hn.
  do 10 (destruct n as [| n]; [eexists; split; [reflexivity | cbn; tauto] |]).
  lia.
Qed.

Lemma random_digit_ok (w : world) :
  exists d w',
    random_digit w = Ok (d, w') /\ exists c, d = [c] /\ In c digits.
Proof.
  unfold random_digit, bind, secrets_randbelow, next, ret.
  do 2 eexists. split; [reflexivity |].
  apply str_of_digit, Nat.mod_upper_bound. discriminate.
Qed.

Lemma concat_digits (number : list (list ascii)) :
  Forall (fun d => exists c, d = [c] /\ In c digits) number ->
  List.length (List.concat number) = List.length number
  /\ all_of digits (List.concat number).
Proof.
  induction 1 as [| d number [c [-> Hc]] _ [IHlen IHall]].
  - split; [reflexivity | constructor].
  - cbn. split; [now rewrite IHlen | now constructor].
Qed.

(** ** generate_memorable *)

Lemma memorable_words_ok (n i : nat) (cap : bool)
    (words : list (list ascii)) (w : world) :
  exists new w',
    memorable_words n i cap words w = Ok (words ++ new, w')
    /\ List.length new = n
    /\ indexed (memorable_word cap) i new.
Proof.
  revert i words w. induction n as [| n IH]; intros i words w.
  - exists [], w. rewrite app_nil_r. repeat split.
    intros j x H. destruct j; discriminate.
  - cbn [memorable_words].
    assert (Hword : exists word w1,
              (if Nat.eqb (Nat.modulo i 3) 0 then secrets_choice adjectives
               else if Nat.eqb (Nat.modulo i 3) 1 then secrets_choice nouns
               else secrets_choice verbs) w = Ok (word, w1)
              /\ In word (nth (Nat.modulo i 3) [adjectives; nouns; verbs] [])).
    { pose proof (Nat.mod_upper_bound i 3 ltac:(discriminate)) as Hm.
      destruct (Nat.modulo i 3) as [| [| [| m]]]; cbn [Nat.eqb nth];
        [| | | lia];
        apply secrets_choice_ok; discriminate. }
    destruct Hword as [word [w1 [E1 Hin]]].
    rewrite (bind_ok _ _ _ _ _ E1). cbv zeta.
    destruct (IH (S i) (words ++
                [if cap && Nat.eqb (Nat.modulo i 2) 0
                 then Py.capitalize (chars word) else chars word]) w1)
      as [new [w' [E' [Hlen Hidx]]]].
    eexists (_ :: new), w'. split.
    + rewrite E'. now rewrite <- app_assoc.
    + split; [cbn; now rewrite Hlen |].
      intros j x Hj. destruct j as [| j]; cbn in Hj.
      * injection Hj as <-. rewrite Nat.add_0_r. exists word.
        split; [exact Hin | reflexivity].
      * replace (i + S j)%nat with (S i + j)%nat by lia. now apply Hidx.
Qed.

(** The optional suffix of digits, [count] of them. *)
Lemma digits_suffix_ok (count : nat) (password : list ascii) (w : world) :
  exists number w',
    (number <- replicateM count random_digit ;;
     ret (password ++ List.concat number))%gen w
    = Ok (password ++ number, w')
    /\ List.length number = count /\ all_of digits number.
Proof.
  destruct (replicateM_ok count random_digit
              (fun d => exists c, d = [c] /\ In c digits) w random_digit_ok)
    as [number [w' [E [Hlen Hall]]]].
  rewrite (bind_ok _ _ _ _ _ E).
  destruct (concat_digits number Hall) as [Hl Hd].
  exists (List.concat number), w'. split; [reflexivity |].
  split; [lia | exact Hd].
Qed.

Lemma symbols_suffix_ok (count : nat) (password : list ascii) (w : world) :
  exists syms w',
    (syms <- replicateM count (secrets_choice symbols) ;;
     ret (password ++ syms))%gen w
    = Ok (password ++ syms, w')
    /\ List.length syms = count /\ all_of symbols syms.
Proof.
  destruct (replicateM_ok count (secrets_choice symbols)
              (fun c => In c symbols) w) as [syms [w' [E [Hlen Hall]]]].
  { intros w0. apply secrets_choice_ok. discriminate. }
  rewrite (bind_ok _ _ _ _ _ E).
  exists syms, w'. split; [reflexivity |]. split; assumption.
Qed.

Lemma generate_memorable_run
    (word_count : Z) (add_numbers add_symbols cap : bool) (w : world) :
  exists words number syms w',
    generate_memorable word_count add_numbers add_symbols cap w
    = Ok (str (List.concat words ++ number ++ syms), w')
    /\ List.length words = Z.to_nat (Z.max 2 word_count)
    /\ indexed (memorable_word cap) 0 words
    /\ (if add_numbers
        then (2 <= List.length number <= 4)%nat /\ all_of digits number
        else number = [])
    /\ (if add_symbols
        then (1 <= List.length syms <= 2)%nat /\ all_of symbols syms
        else syms = []).
Proof.
  unfold generate_memorable.
  replace (if word_count <? 2 then 2 else word_count)
    with (Z.max 2 word_count)
    by (destruct (Z.ltb_spec word_count 2); lia).
  destruct (memorable_words_ok (Z.to_nat (Z.max 2 word_count)) 0 cap [] w)
    as [words [w1 [E1 [Hlen Hidx]]]].
  rewrite (bind_ok _ _ _ _ _ E1). cbn [app]. cbv zeta.
  assert (Hnum : exists number w2,
            (if add_numbers
             then (num_digits <- secrets_choice [2; 3; 4]%nat ;;
                   number <- replicateM num_digits random_digit ;;
                   ret (List.concat words ++ List.concat number))%gen
             else ret (List.concat words)) w1
            = Ok (List.concat words ++ number, w2)
            /\ (if add_numbers
                then (2 <= List.length number <= 4)%nat
                     /\ all_of digits number
                else number = [])).
  { destruct add_numbers.
    - destruct (secrets_choice_ok [2; 3; 4]%nat w1 ltac:(discriminate))
        as [k [wk [Ek Hk]]].
      rewrite (bind_ok _ _ _ _ _ Ek).
      destruct (digits_suffix_ok k (List.concat words) wk)
        as [number [w2 [E2 [Hl Hd]]]].
      exists number, w2. split; [exact E2 |]. split; [| exact Hd].
      cbn in Hk. lia.
    - exists [], w1. rewrite app_nil_r. split; reflexivity. }
  destruct Hnum as [number [w2 [E2 Hnumber]]].
  rewrite (bind_ok _ _ _ _ _ E2).
  assert (Hsym : exists syms w3,
            (if add_symbols
             then (num_symbols <- secrets_choice [1; 2]%nat ;;
                   symbols <- replicateM num_symbols (secrets_choice symbols) ;;
                   ret ((List.concat words ++ number) ++ symbols))%gen
             else ret (List.concat words ++ number)) w2
            = Ok ((List.concat words ++ number) ++ syms, w3)
            /\ (if add_symbols
                then (1 <= List.length syms <= 2)%nat /\ all_of symbols syms
                else syms = [])).
  { destruct add_symbols.
    - destruct (secrets_choice_ok [1; 2]%nat w2 ltac:(discriminate))
        as [k [wk [Ek Hk]]].
      rewrite (bind_ok _ _ _ _ _ Ek).
      destruct (symbols_suffix_ok k (List.concat words ++ number) wk)
        as [syms [w3 [E3 [Hl Hs]]]].
      exists syms, w3. split; [exact E3 |]. split; [| exact Hs].
      cbn in Hk. lia.
    - exists [], w2. rewrite app_nil_r. split; reflexivity. }
  destruct Hsym as [syms [w3 [E3 Hsyms]]].
  rewrite (bind_ok _ _ _ _ _ E3).
  exists words, number, syms, w3.
  rewrite <- app_assoc. repeat split; assumption.
Qed.

(** ** generate_pronounceable *)

Lemma letter_cases (c : ascii) :
  In c (consonants ++ vowels) ->
  In c lowercase /\ In (upper_char c) uppercase /\ lower_char c = c.
Proof.
  intros H. cbn in H.
  repeat (destruct H as [<- | H];
          [split; [apply mem_In; reflexivity |];
           split; [apply mem_In; reflexivity | reflexivity] |]).
  contradiction.
Qed.

Lemma capitalize_syllable (s : list ascii) :
  all_of (consonants ++ vowels) s ->
  List.length (capitalize s) = List.length s
  /\ all_of (lowercase ++ uppercase) (capitalize s)
  /\ (s <> [] -> exists c t, capitalize s = c :: t /\ In c uppercase).
Proof.
  intros H. destruct H as [| c t Hc Ht].
  - repeat split; [constructor | intros F; contradiction].
  - cbn [capitalize]. destruct (letter_cases c Hc) as (_ & Hu & _).
    split; [cbn; unfold lower; now rewrite length_map |].
    split.
    + constructor; [apply in_or_app; now right |].
      unfold lower. induction Ht as [| a t Ha Ht IH]; [constructor |].
      cbn [map]. destruct (letter_cases a Ha) as (Hl & _ & ->).
      constructor; [apply in_or_app; now left | exact IH].
    + intros _. eauto.
Qed.

Lemma plain_syllable (s : list ascii) :
  all_of (consonants ++ vowels) s -> all_of (lowercase ++ uppercase) s.
Proof.
  intros H. eapply Forall_impl; [| exact H].
  intros c Hc. apply in_or_app. left. now apply letter_cases.
Qed.

Lemma syllable_of_ok (pattern syllable : list ascii) (w : world) :
  exists new w',
    syllable_of pattern syllable w = Ok (syllable ++ new, w')
    /\ List.length new = List.length pattern
    /\ all_of (consonants ++ vowels) new.
Proof.
  revert syllable w. induction pattern as [| char pattern IH];
    intros syllable w.
  - exists [], w. rewrite app_nil_r. repeat split. constructor.
  - cbn [syllable_of].
    assert (Hc : exists c w1,
              (if Ascii.eqb char "c" then secrets_choice consonants
               else secrets_choice vowels) w = Ok (c, w1)
              /\ In c (consonants ++ vowels)).
    { destruct (Ascii.eqb char "c").
      - destruct (secrets_choice_ok consonants w ltac:(discriminate))
          as [c [w1 [E H]]].
        exists c, w1. split; [exact E | apply in_or_app; now left].
      - destruct (secrets_choice_ok vowels w ltac:(discriminate))
          as [c [w1 [E H]]].
        exists c, w1. split; [exact E | apply in_or_app; now right]. }
    destruct Hc as [c [w1 [E1 Hc]]].
    rewrite (bind_ok _ _ _ _ _ E1).
    destruct (IH (syllable ++ [c]) w1) as [new [w' [E' [Hlen Hall]]]].
    exists (c :: new), w'. split.
    + rewrite E'. now rewrite <- app_assoc.
    + split; [cbn; now rewrite Hlen | now constructor].
Qed.

(** One round of the loop: a syllable of two or three letters, capitalized
    for sure when the password is still empty, handed to the rest [k]. *)
Lemma syllable_round (password : list ascii) (w : world) :
  exists syllable w',
    (2 <= List.length syllable <= 3)%nat
    /\ all_of (lowercase ++ uppercase) syllable
    /\ (password = [] -> exists c t, syllable = c :: t /\ In c uppercase)
    /\ forall (B : Type) (k : list ascii -> M B),
         (pattern <- secrets_choice ["cv"; "cvc"; "vc"] ;;
          syllable <- syllable_of (chars pattern) [] ;;
          cap <- (if Nat.eqb (List.length password) 0 then ret true
                  else r <- secrets_randbelow 3 ;; ret (Nat.eqb r 0)) ;;
          k (if cap : bool then capitalize syllable else syllable))%gen w
         = k syllable w'.
Proof.
  destruct (secrets_choice_ok ["cv"; "cvc"; "vc"] w ltac:(discriminate))
    as [pattern [w1 [E1 Hp]]].
  destruct (syllable_of_ok (chars pattern) [] w1)
    as [syllable [w2 [E2 [Hlen Hall]]]].
  cbn [app] in E2.
  assert (Hl : (2 <= List.length syllable <= 3)%nat).
  { rewrite Hlen. cbn in Hp.
    destruct Hp as [<- | [<- | [<- | []]]]; cbn; lia. }
  destruct (capitalize_syllable syllable Hall) as (Hcl & Hca & Hcf).
  assert (Hne : syllable <> [])
    by (destruct syllable; [cbn in Hl; lia | discriminate]).
  destruct password as [| a password]; cbn [List.length Nat.eqb].
  - exists (capitalize syllable), w2.
    split; [lia |]. split; [exact Hca |]. split; [intros _; now apply Hcf |].
    intros B k.
    rewrite (bind_ok _ _ _ _ _ E1), (bind_ok _ _ _ _ _ E2). reflexivity.
  - eexists (if Nat.eqb _ 0 then capitalize syllable else syllable), _.
    split; [destruct (Nat.eqb _ 0); lia |].
    split; [destruct (Nat.eqb _ 0);
            [exact Hca | now apply plain_syllable] |].
    split; [discriminate |].
    intros B k.
    rewrite (bind_ok _ _ _ _ _ E1), (bind_ok _ _ _ _ _ E2).
    unfold bind at 1. unfold bind at 1.
    unfold secrets_randbelow, next, ret. reflexivity.
Qed.

Lemma syllables_ok (fuel : nat) (target : Z) (password : list ascii)
    (w : world) :
  target - Z.of_nat (List.length password) <= Z.of_nat fuel ->
  exists out w',
    syllables fuel target password w = Ok (Some (password ++ out), w')
    /\ target <= Z.of_nat (List.length (password ++ out))
    /\ all_of (lowercase ++ uppercase) out
    /\ (password = [] -> 0 < target ->
        exists c t, out = c :: t /\ In c uppercase)
    /\ (target <= Z.of_nat (List.length password) -> out = []).
Proof.
  revert password w. induction fuel as [| fuel IH]; intros password w Hfuel.
  - exists [], w. rewrite app_nil_r. cbn [syllables].
    destruct (Z.ltb_spec (Z.of_nat (List.length password)) target); [lia |].
    split; [reflexivity |]. split; [lia |]. split; [constructor |].
    split; [| reflexivity].
    intros -> Ht. cbn in *. lia.
  - cbn [syllables].
    destruct (Z.ltb_spec (Z.of_nat (List.length password)) target) as [Hlt | Hge].
    + destruct (syllable_round password w)
        as (syllable & w1 & Hl & Hall & Hfirst & Hk).
      cbv zeta.
      rewrite (Hk _ (fun syl => syllables fuel target (password ++ syl))).
      destruct (IH (password ++ syllable) w1)
        as (out & w' & E & Hlen & Hout & _).
      { rewrite length_app. lia. }
      exists (syllable ++ out), w'.
      rewrite app_assoc. split; [exact E |]. split; [exact Hlen |].
      split; [apply Forall_app; now split |].
      split; [| lia].
      intros Hnil _. destruct (Hfirst Hnil) as (c & t & -> & Hc).
      exists c, (t ++ out). split; [reflexivity | exact Hc].
    + exists [], w. rewrite app_nil_r.
      split; [reflexivity |]. split; [lia |]. split; [constructor |].
      split; [| reflexivity].
      intros -> Ht. cbn in *. lia.
Qed.

Lemma slice_to_ok (out : list ascii) (target : Z) :
  target <= Z.of_nat (List.length out) ->
  (target <= 0 -> out = []) ->
  Z.of_nat (List.length (slice_to out target)) = Z.max 0 target
  /\ (forall class, all_of class out -> all_of class (slice_to out target))
  /\ (0 < target ->
      forall c t, out = c :: t -> exists t', slice_to out target = c :: t').
Proof.
  intros Hlen Hnil. unfold slice_to.
  destruct (Z.ltb_spec target 0) as [Hneg | Hpos].
  - rewrite (Hnil ltac:(lia)). rewrite firstn_nil.
    split; [cbn; lia |]. split; [intros; constructor | lia].
  - split; [rewrite length_firstn; lia |]. split.
    + intros class Hall. unfold all_of in *.
      rewrite <- (firstn_skipn (Z.to_nat target) out) in Hall.
      apply Forall_app in Hall. tauto.
    + intros Ht c t ->.
      destruct (Z.to_nat target) as [| k] eqn:Ek; [lia |].
      cbn [firstn]. eauto.
Qed.

Lemma generate_pronounceable_run
    (length : Z) (add_numbers add_symbols : bool) (w : world) :
  let reserved :=
    (if add_numbers then 4 else 0) + (if add_symbols then 2 else 0) in
  exists body number syms w',
    generate_pronounceable length add_numbers add_symbols w
    = Ok (Some (str (body ++ number ++ syms)), w')
    /\ Z.of_nat (List.length body) = Z.max 0 (length - reserved)
    /\ all_of (lowercase ++ uppercase) body
    /\ (0 < length - reserved -> exists c t, body = c :: t /\ In c uppercase)
    /\ (if add_numbers
        then List.length number = 4%nat /\ all_of digits number
        else number = [])
    /\ (if add_symbols
        then List.length syms = 2%nat /\ all_of symbols syms
        else syms = []).
Proof.
  cbv zeta. unfold generate_pronounceable.
  set (target := length - (if add_numbers then 4 else 0)
                 - (if add_symbols then 2 else 0)).
  replace (length - ((if add_numbers then 4 else 0)
                     + (if add_symbols then 2 else 0)))
    with target by (unfold target; lia).
  destruct (syllables_ok (Z.to_nat target) target [] w)
    as (out & w1 & E1 & Hlen & Hall & Hfirst & Hnil).
  { cbn. lia. }
  cbn [app] in E1, Hlen.
  rewrite (bind_ok _ _ _ _ _ E1). cbv zeta.
  destruct (slice_to_ok out target Hlen) as (Hbody & Hclass & Hhead).
  { intros Ht. apply Hnil. cbn. lia. }
  set (body := slice_to out target) in *.
  assert (Hnum : exists number w2,
            (if add_numbers
             then (number <- replicateM 4 random_digit ;;
                   ret (body ++ List.concat number))%gen
             else ret body) w1 = Ok (body ++ number, w2)
            /\ (if add_numbers
                then List.length number = 4%nat /\ all_of digits number
                else number = [])).
  { destruct add_numbers.
    - destruct (digits_suffix_ok 4 body w1) as [number [w2 [E2 H2]]].
      exists number, w2. split; [exact E2 | exact H2].
    - exists [], w1. rewrite app_nil_r. split; reflexivity. }
  destruct Hnum as [number [w2 [E2 Hnumber]]].
  rewrite (bind_ok _ _ _ _ _ E2).
  assert (Hsym : exists syms w3,
            (if add_symbols
             then (syms <- replicateM 2 (secrets_choice symbols) ;;
                   ret ((body ++ number) ++ syms))%gen
             else ret (body ++ number)) w2
            = Ok ((body ++ number) ++ syms, w3)
            /\ (if add_symbols
                then List.length syms = 2%nat /\ all_of symbols syms
                else syms = [])).
  { destruct add_symbols.
    - destruct (symbols_suffix_ok 2 (body ++ number) w2)
        as [syms [w3 [E3 H3]]].
      exists syms, w3. split; [exact E3 | exact H3].
    - exists [], w2. rewrite app_nil_r. split; reflexivity. }
  destruct Hsym as [syms [w3 [E3 Hsyms]]].
  rewrite (bind_ok _ _ _ _ _ E3).
  exists body, number, syms, w3. rewrite <- app_assoc.
  split; [reflexivity |]. split; [exact Hbody |].
  split; [now apply Hclass |]. split; [| split; assumption].
  intros Ht. destruct (Hfirst eq_refl Ht) as (c & t & Hout & Hc).
  destruct (Hhead Ht c t Hout) as [t' Ht'].
  exists c, t'. split; assumption.
Qed.

(** ** generate_passphrase *)

Lemma passphrase_words_ok (n : nat) (cap : bool)
    (words : list (list ascii)) (w : world) :
  exists new w',
    passphrase_words n cap words w = Ok (words ++ new, w')
    /\ List.length new = n
    /\ Forall (passphrase_word cap) new.
Proof.
  revert words w. induction n as [| n IH]; intros words w.
  - exists [], w. rewrite app_nil_r. repeat split. constructor.
  - cbn [passphrase_words].
    destruct (secrets_choice_ok word_list w ltac:(discriminate))
      as [word [w1 [E1 Hin]]].
    rewrite (bind_ok _ _ _ _ _ E1). cbv zeta.
    destruct (IH (words ++ [if cap then capitalize (chars word)
                            else chars word]) w1)
      as [new [w' [E' [Hlen Hall]]]].
    eexists (_ :: new), w'. split.
    + rewrite E'. now rewrite <- app_assoc.
    + split; [cbn; now rewrite Hlen |].
      constructor; [| exact Hall]. exists word. split; [exact Hin | reflexivity].
Qed.

Lemma generate_passphrase_run
    (word_count : Z) (separator : string) (cap : bool) (w : world) :
  exists words w',
    generate_passphrase word_count separator cap w
    = Ok (str (join (chars separator) words), w')
    /\ List.length words = Z.to_nat word_count
    /\ Forall (passphrase_word cap) words.
Proof.
  unfold generate_passphrase.
  destruct (passphrase_words_ok (Z.to_nat word_count) cap [] w)
    as [words [w' [E H]]].
  rewrite (bind_ok _ _ _ _ _ E). cbn [app].
  exists words, w'. split; [reflexivity | exact H].
Qed.

Lemma word_list_lengths (cap : bool) (word : list ascii) :
  passphrase_word cap word ->
  (3 <= List.length word <= 9)%nat
  /\ all_of (lowercase ++ uppercase) word.
Proof.
  intros [x [Hin ->]].
  cbn in Hin.
  repeat (destruct Hin as [<- | Hin];
          [destruct cap; (split; [cbn; lia |]);
           apply Forall_forall; intros c Hc; apply mem_In;
           cbn in Hc;
           repeat (destruct Hc as [<- | Hc]; [reflexivity |]);
           contradiction |]).
  contradiction.
Qed.

Lemma length_join (sep : list ascii) (words : list (list ascii)) :
  List.length (join sep words)
  = (total_length words + List.length sep * (List.length words - 1))%nat.
Proof.
  unfold total_length. destruct words as [| x words]; [cbn; lia |].
  cbn [join List.concat List.length]. rewrite !length_app.
  replace (S (List.length words) - 1)%nat with (List.length words) by lia.
  induction words as [| y words IH]; cbn [flat_map List.concat List.length].
  - lia.
  - rewrite !length_app. lia.
Qed.

(** ** batch_generate *)

Lemma batch_loop_ok
    (n : Z) (ul uu ud us amb : bool) (excl : string)
    (k : nat) (passwords : list string) (w : world) :
  4 <= n ->
  Spec.selection_pool ul uu ud us amb excl <> [] ->
  exists new w',
    batch_loop k n ul uu ud us amb excl passwords w
    = Ok (passwords ++ new, w')
    /\ List.length new = k
    /\ Forall (fun pw =>
                 len pw = n
                 /\ (ul = true -> Spec.has_char_of lowercase pw)
                 /\ (uu = true -> Spec.has_char_of uppercase pw)
                 /\ (ud = true -> Spec.has_char_of digits pw)
                 /\ (us = true -> Spec.has_char_of symbols pw)) new.
Proof.
  intros Hn Hpool. revert passwords w.
  induction k as [| k IH]; intros passwords w.
  - exists [], w. rewrite app_nil_r. repeat split. constructor.
  - cbn [batch_loop].
    destruct (generate_random_classes_present n ul uu ud us amb excl w
                Hn Hpool) as (pw & w1 & E1 & Hpw).
    rewrite (bind_ok _ _ _ _ _ E1).
    destruct (IH (passwords ++ [pw]) w1) as (new & w' & E' & Hlen & Hall).
    exists (pw :: new), w'. split.
    + rewrite E'. now rewrite <- app_assoc.
    + split; [cbn; now rewrite Hlen | now constructor].
Qed.

Lemma generate_random_invalid
    (n : Z) (ul uu ud us amb : bool) (excl : string) (w : world) :
  n < 4 \/ Spec.selection_pool ul uu ud us amb excl = [] ->
  exists msg,
    generate_random n ul uu ud us amb excl w = Raise (ValueError msg).
Proof.
  intros H. destruct (Z.lt_ge_cases n 4) as [Hn | Hn].
  - eexists. now apply generate_random_short.
  - destruct H as [H | H]; [lia |].
    eexists. now apply generate_random_empty_pool.
Qed.

(** ** get_password_suggestions *)

Lemma digits_only_run (n : Z) (amb : bool) (excl : string) (w : world) :
  4 <= n ->
  Spec.selection_pool false false true false amb excl <> [] ->
  exists pw w',
    generate_random n false false true false amb excl w = Ok (pw, w')
    /\ len pw = n
    /\ all_of digits (chars pw).
Proof.
  intros Hn Hpool.
  destruct (generate_random_run n false false true false amb excl w Hn Hpool)
    as (cl & cu & cd & cs & extra & shuffled & w' & E & Hperm
        & _ & _ & Hd & _ & Hall & Hlen).
  exists (str shuffled), w'. split; [exact E |].
  split; [unfold len; now rewrite length_str |].
  rewrite chars_str. unfold all_of.
  eapply Permutation_Forall; [exact Hperm |].
  cbn [Spec.selected app]. constructor; [exact Hd |].
  eapply Forall_impl; [| exact Hall].
  intros c Hc. unfold Spec.selection_pool in Hc.
  apply filter_In in Hc. destruct Hc as [Hc _].
  cbn [Spec.selected app] in Hc. exact Hc.
Qed.

Lemma get_password_suggestions_run (w : world) :
  exists general high_security memorable passphrase pin w',
    len general = 16 /\ len high_security = 24 /\ len pin = 6
    /\ all_of digits (chars pin)
    /\ forall purpose,
         get_password_suggestions purpose w
         = Ok (get
                 [ ("general",
                    {| sg_length := 16;
                       sg_pattern := "Random with all character types";
                       sg_example := general;
                       sg_strength := "Strong" |});
                   ("high_security",
                    {| sg_length := 24;
                       sg_pattern := "Random with all character types";
                       sg_example := high_security;
                       sg_strength := "Very Strong" |});
                   ("memorable",
                    {| sg_length := 20;
                       sg_pattern := "Word combination with numbers and symbols";
                       sg_example := memorable;
                       sg_strength := "Strong" |});
                   ("passphrase",
                    {| sg_length := 30;
                       sg_pattern := "Multiple words separated by hyphens";
                       sg_example := passphrase;
                       sg_strength := "Very Strong" |});
                   ("pin",
                    {| sg_length := 6;
                       sg_pattern := "Digits only";
                       sg_example := pin;
                       sg_strength := "Weak (for PINs only)" |}) ]
                 purpose
                 {| sg_length := 16;
                    sg_pattern := "Random with all character types";
                    sg_example := general;
                    sg_strength := "Strong" |},
               w').
Proof.
  assert (Hpool : Spec.selection_pool true true true true false "" <> [])
    by (vm_compute; discriminate).
  destruct (generate_random_classes_present 16 true true true true false ""
              w ltac:(lia) Hpool) as (general & w1 & E1 & L1 & _).
  destruct (generate_random_classes_present 24 true true true true false ""
              w1 ltac:(lia) Hpool) as (high & w2 & E2 & L2 & _).
  destruct (generate_memorable_run 4 true true true w2)
    as (words & number & syms & w3 & E3 & _).
  destruct (generate_passphrase_run 6 "-" false w3)
    as (pwords & w4 & E4 & _).
  destruct (digits_only_run 6 false "" w4 ltac:(lia))
    as (pin & w5 & E5 & L5 & D5).
  { vm_compute. discriminate. }
  exists general, high, (str (List.concat words ++ number ++ syms)),
    (str (join (chars "-") pwords)), pin, w5.
  repeat (split; [assumption |]).
  intros purpose. unfold get_password_suggestions.
  rewrite (bind_ok _ _ _ _ _ E1), (bind_ok _ _ _ _ _ E2),
    (bind_ok _ _ _ _ _ E3), (bind_ok _ _ _ _ _ E4), (bind_ok _ _ _ _ _ E5).
  reflexivity.
Qed.

(** ** Character classes seen by the two estimators *)

Lemma search_class (p : ascii -> bool) (s : list ascii) :
  Re.search (Re.Class p) s = existsb p s.
Proof.
  unfold Re.search. induction s as [| a s IH]; [reflexivity |].
  cbn [tails existsb]. rewrite IH. cbn [Re.matches].
  destruct (p a); reflexivity.
Qed.

Lemma class_forall (p : ascii -> bool) (class : list ascii) :
  forallb p class = true -> forall c, In c class -> p c = true.
Proof. intros H. now apply forallb_forall. Qed.

Lemma existsb_has_char (p : ascii -> bool) (class : list ascii)
    (pw : string) :
  forallb p class = true ->
  Spec.has_char_of class pw -> existsb p (chars pw) = true.
Proof.
  intros Hp [c [Hc Hin]]. apply existsb_exists. exists c.
  split; [exact Hc | now apply (class_forall p class)].
Qed.

Lemma existsb_all_of (p : ascii -> bool) (class s : list ascii) :
  forallb (fun c => negb (p c)) class = true ->
  all_of class s -> existsb p s = false.
Proof.
  intros Hp Hall. induction Hall as [| c s Hc _ IH]; [reflexivity |].
  cbn [existsb]. rewrite IH.
  pose proof (class_forall _ _ Hp c Hc) as H. cbv beta in H.
  destruct (p c); cbn in H; [discriminate | reflexivity].
Qed.

(** ** estimate_strength *)

Lemma estimate_charset_range (password : string) :
  0 <= es_charset_size (estimate_strength password) <= 88.
Proof.
  unfold estimate_strength. cbn [es_charset_size].
  change (Z.of_nat (List.length symbols)) with 26.
  destruct (existsb islower _), (existsb isupper _), (existsb isdigit _),
    (existsb (fun c => mem c symbols) _); lia.
Qed.

Lemma entropy_at_least_bound (n c bits : Z) :
  0 <= n -> 0 <= c <= 88 -> 88 ^ n < 2 ^ bits ->
  entropy_at_least n c bits = false.
Proof.
  intros Hn Hc Hlt. unfold entropy_at_least. apply Z.leb_gt.
  eapply Z.le_lt_trans; [| exact Hlt].
  apply Z.pow_le_mono_l. lia.
Qed.

Lemma estimate_strength_cases (password : string) :
  let e := estimate_strength password in
  let at_least bits :=
    if es_charset_size e >? 0
    then entropy_at_least (len password) (es_charset_size e) bits
    else 0 >=? bits in
  es_strength e =
    (if at_least 60 then "Very Strong"
     else if at_least 40 then "Strong"
     else if at_least 30 then "Moderate"
     else "Weak")
  /\ es_length e = len password
  /\ es_entropy e =
     (if es_charset_size e >? 0
      then PasswordAnalyzer.hundredths (len password) (es_charset_size e)
      else 0).
Proof. cbv zeta. repeat split. Qed.

Lemma pow_88_mono (n m : Z) : 0 <= n <= m -> 88 ^ n <= 88 ^ m.
Proof. intros H. apply Z.pow_le_mono_r; lia. Qed.

End StrategyFacts.

(** * Further properties: the generation strategies *)

Section StrategyProperties.

Import Py PasswordGenerator Shape.

(** X1: [generate_memorable] never raises.  Its result is the words, then
    the digits, then the symbols: the number of words is [word_count], or 2
    when [word_count] is below 2; the word at position [i] is an adjective,
    a noun or a verb by [i] modulo 3, capitalized at even positions when
    [capitalize] is set; there are 2 to 4 digits exactly when [add_numbers]
    is set and 1 or 2 symbols exactly when [add_symbols] is set. *)
Theorem generate_memorable_shape
    (word_count : Z) (add_numbers add_symbols cap : bool) (w : world) :
  exists words number syms w',
    generate_memorable word_count add_numbers add_symbols cap w
    = Ok (str (List.concat words ++ number ++ syms), w')
    /\ List.length words = Z.to_nat (Z.max 2 word_count)
    /\ indexed (memorable_word cap) 0 words
    /\ (if add_numbers
        then (2 <= List.length number <= 4)%nat /\ all_of digits number
        else number = [])
    /\ (if add_symbols
        then (1 <= List.length syms <= 2)%nat /\ all_of symbols syms
        else syms = []).
Proof. apply generate_memorable_run. Qed.

(** X2: [generate_pronounceable] never raises and its loop always ends.
    Its result is a body of ASCII letters, then four digits when
    [add_numbers] is set, then two symbols when [add_symbols] is set; the
    body has [length] minus the reserved suffix characters (none when that
    is negative) and starts with a capital letter when it is not empty. *)
Theorem generate_pronounceable_shape
    (length : Z) (add_numbers add_symbols : bool) (w : world) :
  let reserved :=
    (if add_numbers then 4 else 0) + (if add_symbols then 2 else 0) in
  exists body number syms w',
    generate_pronounceable length add_numbers add_symbols w
    = Ok (Some (str (body ++ number ++ syms)), w')
    /\ Z.of_nat (List.length body) = Z.max 0 (length - reserved)
    /\ all_of (lowercase ++ uppercase) body
    /\ (0 < length - reserved -> exists c t, body = c :: t /\ In c uppercase)
    /\ (if add_numbers
        then List.length number = 4%nat /\ all_of digits number
        else number = [])
    /\ (if add_symbols
        then List.length syms = 2%nat /\ all_of symbols syms
        else syms = []).
Proof. apply generate_pronounceable_run. Qed.

(** X3: the password of [generate_pronounceable] has exactly [length]
    characters when [length] is at least the number of reserved suffix
    characters, and exactly that number of characters, more than asked for,
    when [length] is smaller. *)
Theorem generate_pronounceable_length
    (length : Z) (add_numbers add_symbols : bool) (w : world) :
  exists password w',
    generate_pronounceable length add_numbers add_symbols w
    = Ok (Some password, w')
    /\ len password
       = Z.max length
           ((if add_numbers then 4 else 0) + (if add_symbols then 2 else 0)).
Proof.
  destruct (generate_pronounceable_run length add_numbers add_symbols w)
    as (body & number & syms & w' & E & Hbody & _ & _ & Hnum & Hsym).
  exists (str (body ++ number ++ syms)), w'. split; [exact E |].
  unfold len. rewrite length_str, !length_app.
  destruct add_numbers, add_symbols;
    repeat match goal with
    | H : _ /\ _ |- _ => destruct H as [? _]
    | H : _ = [] |- _ => rewrite H; clear H
    end; cbn [List.length]; lia.
Qed.

(** X4: [generate_passphrase] never raises; its result is [word_count]
    words of the extended word list, each capitalized when
    [capitalize_words] is set, joined by the separator; for a
    [word_count] of 0 or less it is the empty string. *)
Theorem generate_passphrase_shape
    (word_count : Z) (separator : string) (cap : bool) (w : world) :
  exists words w',
    generate_passphrase word_count separator cap w
    = Ok (str (join (chars separator) words), w')
    /\ List.length words = Z.to_nat word_count
    /\ Forall (passphrase_word cap) words
    /\ (word_count <= 0 ->
        generate_passphrase word_count separator cap w = Ok ("", w')).
Proof.
  destruct (generate_passphrase_run word_count separator cap w)
    as (words & w' & E & Hlen & Hall).
  exists words, w'. repeat (split; [assumption |]).
  intros Hwc. rewrite E.
  destruct words as [| x words]; [reflexivity |].
  cbn in Hlen. lia.
Qed.

Lemma total_length_bounds (cap : bool) (words : list (list ascii)) :
  Forall (passphrase_word cap) words ->
  (3 * List.length words <= total_length words <= 9 * List.length words)%nat.
Proof.
  unfold total_length. induction 1 as [| x words Hx _ IH]; [cbn; lia |].
  destruct (word_list_lengths cap x Hx) as [Hl _].
  cbn [List.concat List.length]. rewrite length_app. lia.
Qed.

(** X5: a passphrase of [n] words has between [3 * n] and [9 * n]
    characters besides its [n - 1] separators. *)
Theorem generate_passphrase_length
    (word_count : Z) (separator : string) (cap : bool) (w : world) :
  let n := Z.to_nat word_count in
  let seps := (String.length separator * (n - 1))%nat in
  exists password w',
    generate_passphrase word_count separator cap w = Ok (password, w')
    /\ (3 * n + seps <= String.length password <= 9 * n + seps)%nat.
Proof.
  cbv zeta.
  destruct (generate_passphrase_run word_count separator cap w)
    as (words & w' & E & Hlen & Hall).
  exists (str (join (chars separator) words)), w'. split; [exact E |].
  rewrite length_str, length_join, length_chars, Hlen.
  pose proof (total_length_bounds cap words Hall) as Hb.
  rewrite Hlen in Hb. lia.
Qed.

(** X6: with a length of at least 4 and a non-empty selection pool,
    [batch_generate] returns [count] passwords (none when [count] is 0 or
    less), each of the requested length and with a character of every
    selected class. *)
Theorem batch_generate_passwords
    (count n : Z) (ul uu ud us amb : bool) (excl : string) (w : world) :
  4 <= n ->
  Spec.selection_pool ul uu ud us amb excl <> [] ->
  exists passwords w',
    batch_generate count n ul uu ud us amb excl w = Ok (passwords, w')
    /\ List.length passwords = Z.to_nat count
    /\ Forall (fun pw =>
                 len pw = n
                 /\ (ul = true -> Spec.has_char_of lowercase pw)
                 /\ (uu = true -> Spec.has_char_of uppercase pw)
                 /\ (ud = true -> Spec.has_char_of digits pw)
                 /\ (us = true -> Spec.has_char_of symbols pw)) passwords.
Proof.
  intros Hn Hpool. unfold batch_generate.
  destruct (batch_loop_ok n ul uu ud us amb excl (Z.to_nat count) [] w
              Hn Hpool) as (new & w' & E & H).
  exists new, w'. split; [exact E | exact H].
Qed.

(** X7: with a length below 4 or an empty selection pool, [batch_generate]
    raises [ValueError] when [count] is at least 1, and returns the empty
    list, without any error, when [count] is 0 or less. *)
Theorem batch_generate_invalid
    (count n : Z) (ul uu ud us amb : bool) (excl : string) (w : world) :
  n < 4 \/ Spec.selection_pool ul uu ud us amb excl = [] ->
  (count <= 0
   /\ batch_generate count n ul uu ud us amb excl w = Ok ([], w))
  \/ (0 < count
      /\ exists msg,
           batch_generate count n ul uu ud us amb excl w
           = Raise (ValueError msg)).
Proof.
  intros Hbad. unfold batch_generate.
  destruct (Z.to_nat count) as [| k] eqn:Ek.
  - left. split; [lia | reflexivity].
  - right. split; [lia |]. cbn [batch_loop].
    destruct (generate_random_invalid n ul uu ud us amb excl w Hbad)
      as [msg E].
    exists msg. now apply bind_raise.
Qed.

End StrategyProperties.

(** * Further properties: suggestions and the quick estimate *)

Section EstimateProperties.

Import Py PasswordGenerator Shape.

(** X8: for a purpose that is none of the five known ones,
    [get_password_suggestions] answers as it does for "general", with a
    16-character example; it raises for no purpose. *)
Theorem suggestions_fallback (purpose : string) (w : world) :
  ~ In purpose ["general"; "high_security"; "memorable"; "passphrase"; "pin"] ->
  get_password_suggestions purpose w = get_password_suggestions "general" w
  /\ exists s w',
       get_password_suggestions purpose w = Ok (s, w')
       /\ sg_length s = 16
       /\ len (sg_example s) = 16.
Proof.
  intros Hnot.
  destruct (get_password_suggestions_run w)
    as (general & high & memorable & passphrase & pin & w'
        & L1 & L2 & L5 & D5 & E).
  rewrite (E purpose), (E "general").
  assert (Hget : forall k, In k ["general"; "high_security"; "memorable";
                                 "passphrase"; "pin"] ->
                 String.eqb k purpose = false).
  { intros k Hk. apply String.eqb_neq. intros ->. contradiction. }
  unfold get. cbn [get_opt].
  rewrite !Hget by (cbn; tauto).
  change (String.eqb "general" "general") with true. cbv iota.
  split; [reflexivity |].
  do 2 eexists. split; [reflexivity |]. cbn [sg_length sg_example].
  split; [reflexivity | exact L1].
Qed.

(** X9: whatever the purpose, [get_password_suggestions] returns an entry;
    unless the purpose is "memorable" or "passphrase" the example has
    exactly the declared length, and the example of "pin" is made of
    digits only. *)
Theorem suggestion_example_length (purpose : string) (w : world) :
  exists s w',
    get_password_suggestions purpose w = Ok (s, w')
    /\ (purpose <> "memorable" -> purpose <> "passphrase" ->
        len (sg_example s) = sg_length s)
    /\ (purpose = "pin" -> all_of digits (chars (sg_example s))).
Proof.
  destruct (get_password_suggestions_run w)
    as (general & high & memorable & passphrase & pin & w'
        & L1 & L2 & L5 & D5 & E).
  rewrite (E purpose). do 2 eexists. split; [reflexivity |].
  unfold get. cbn [get_opt].
  destruct (String.eqb_spec "general" purpose) as [<- | H1];
    [split; [intros; exact L1 | discriminate] |].
  destruct (String.eqb_spec "high_security" purpose) as [<- | H2];
    [split; [intros; exact L2 | discriminate] |].
  destruct (String.eqb_spec "memorable" purpose) as [<- | H3];
    [split; [intros; congruence | discriminate] |].
  destruct (String.eqb_spec "passphrase" purpose) as [<- | H4];
    [split; [intros; congruence | discriminate] |].
  destruct (String.eqb_spec "pin" purpose) as [<- | H5];
    [split; [intros; exact L5 | intros; exact D5] |].
  split; [intros; exact L1 | intros; congruence].
Qed.

Lemma estimate_charset (password : string) :
  es_charset_size (estimate_strength password)
  = (if existsb islower (chars password) then 26 else 0)
    + (if existsb isupper (chars password) then 26 else 0)
    + (if existsb isdigit (chars password) then 10 else 0)
    + (if existsb (fun c => mem c symbols) (chars password) then 26 else 0).
Proof.
  unfold estimate_strength. cbn [es_charset_size].
  change (Z.of_nat (List.length symbols)) with 26.
  destruct (existsb islower _), (existsb isupper _), (existsb isdigit _),
    (existsb (fun c => mem c symbols) _); reflexivity.
Qed.

Lemma generate_random_returns
    (n : Z) (ul uu ud us amb : bool) (excl : string)
    (w : world) (pw : string) (w' : world) :
  generate_random n ul uu ud us amb excl w = Ok (pw, w') ->
  4 <= n /\ Spec.selection_pool ul uu ud us amb excl <> [].
Proof.
  intros E. destruct (Z.lt_ge_cases n 4) as [Hn | Hn].
  { rewrite generate_random_short in E by exact Hn. discriminate. }
  split; [exact Hn |]. intros Hpool.
  rewrite generate_random_empty_pool in E by assumption. discriminate.
Qed.

(** X10: every password that [generate_random] returns for a length of at
    least 10 with the four classes selected is rated "Very Strong" by
    [estimate_strength], with a character set of 88. *)
Theorem random_password_rated_very_strong
    (n : Z) (amb : bool) (excl : string) (w : world)
    (pw : string) (w' : world) :
  10 <= n ->
  generate_random n true true true true amb excl w = Ok (pw, w') ->
  es_strength (estimate_strength pw) = "Very Strong"
  /\ es_charset_size (estimate_strength pw) = 88
  /\ es_length (estimate_strength pw) = n.
Proof.
  intros Hn E.
  destruct (generate_random_returns _ _ _ _ _ _ _ _ _ _ E) as [H4 Hpool].
  destruct (generate_random_classes_present n true true true true amb excl w
              H4 Hpool) as (pw1 & w1 & E1 & Hlen & Hl & Hu & Hd & Hs).
  rewrite E in E1. injection E1 as <- <-.
  assert (Hcs : es_charset_size (estimate_strength pw) = 88).
  { rewrite estimate_charset.
    rewrite (existsb_has_char islower lowercase pw eq_refl (Hl eq_refl)).
    rewrite (existsb_has_char isupper uppercase pw eq_refl (Hu eq_refl)).
    rewrite (existsb_has_char isdigit digits pw eq_refl (Hd eq_refl)).
    rewrite (existsb_has_char (fun c => mem c symbols) symbols pw eq_refl
               (Hs eq_refl)).
    reflexivity. }
  destruct (estimate_strength_cases pw) as (Hst & Hel & _).
  rewrite Hcs, Hlen in Hst. rewrite Hel, Hlen.
  split; [| split; [exact Hcs | reflexivity]].
  rewrite Hst. change (88 >? 0) with true. cbv iota.
  replace (entropy_at_least n 88 60) with true; [reflexivity |].
  symmetry. unfold entropy_at_least. apply Z.leb_le.
  apply Z.le_trans with (88 ^ 10); [apply Z.leb_le; reflexivity |].
  apply pow_88_mono. lia.
Qed.

(** X11: every password that [generate_random] returns with the digits
    alone selected and a length below 10 is rated "Weak" by
    [estimate_strength], with a character set of 10. *)
Theorem short_pin_rated_weak
    (n : Z) (amb : bool) (excl : string) (w : world)
    (pw : string) (w' : world) :
  n <= 9 ->
  generate_random n false false true false amb excl w = Ok (pw, w') ->
  es_strength (estimate_strength pw) = "Weak"
  /\ es_charset_size (estimate_strength pw) = 10.
Proof.
  intros Hn E.
  destruct (generate_random_returns _ _ _ _ _ _ _ _ _ _ E) as [H4 Hpool].
  destruct (digits_only_run n amb excl w H4 Hpool)
    as (pw1 & w1 & E1 & Hlen & Hdig).
  rewrite E in E1. injection E1 as <- <-.
  assert (Hne : existsb isdigit (chars pw) = true).
  { destruct (chars pw) as [| c s] eqn:Ec.
    - unfold len in Hlen. rewrite <- length_chars, Ec in Hlen. cbn in Hlen. lia.
    - inversion Hdig as [| ? ? Hc _]; subst. cbn [existsb].
      now rewrite (class_forall isdigit digits eq_refl c Hc). }
  assert (Hcs : es_charset_size (estimate_strength pw) = 10).
  { rewrite estimate_charset, Hne.
    rewrite (existsb_all_of islower digits (chars pw) eq_refl Hdig).
    rewrite (existsb_all_of isupper digits (chars pw) eq_refl Hdig).
    rewrite (existsb_all_of (fun c => mem c symbols) digits (chars pw)
               eq_refl Hdig).
    reflexivity. }
  destruct (estimate_strength_cases pw) as (Hst & _ & _).
  rewrite Hcs, Hlen in Hst. split; [| exact Hcs].
  rewrite Hst. change (10 >? 0) with true. cbv iota.
  assert (Hlow : forall bits, 30 <= bits ->
                 entropy_at_least n 10 bits = false).
  { intros bits Hb. unfold entropy_at_least. apply Z.leb_gt.
    apply Z.le_lt_trans with (10 ^ 9);
      [apply Z.pow_le_mono_r; lia |].
    apply Z.lt_le_trans with (2 ^ 30); [reflexivity |].
    apply Z.pow_le_mono_r; lia. }
  rewrite !Hlow by lia. reflexivity.
Qed.

(** X12: [estimate_strength] rates no password of 4 characters or fewer
    above "Weak" and no password of 9 characters or fewer "Very Strong";
    its character-set size lies between 0 and 88. *)
Theorem estimate_needs_length (password : string) :
  0 <= es_charset_size (estimate_strength password) <= 88
  /\ (len password <= 4 -> es_strength (estimate_strength password) = "Weak")
  /\ (len password <= 9 ->
      es_strength (estimate_strength password) <> "Very Strong").
Proof.
  pose proof (estimate_charset_range password) as Hcs.
  pose proof (len_nonneg password) as Hlen.
  destruct (estimate_strength_cases password) as (Hst & _ & _).
  split; [exact Hcs |].
  assert (Hlow : forall m bits,
            len password <= m -> 88 ^ m < 2 ^ bits ->
            entropy_at_least (len password)
              (es_charset_size (estimate_strength password)) bits = false).
  { intros m bits Hm Hlt. apply entropy_at_least_bound; [lia | lia |].
    eapply Z.le_lt_trans; [apply pow_88_mono | exact Hlt]. lia. }
  split; intros Hshort; rewrite Hst;
    destruct (es_charset_size (estimate_strength password) >? 0).
  - rewrite (Hlow 4 60), (Hlow 4 40), (Hlow 4 30);
      (reflexivity || assumption).
  - reflexivity.
  - rewrite (Hlow 9 60); [| assumption | reflexivity].
    repeat match goal with
    | |- context [if ?c then _ else _] => destruct c
    end; discriminate.
  - cbn. discriminate.
Qed.

End EstimateProperties.

(** * Further properties: the analyzer *)

Section AnalyzerProperties.

Import Py PasswordAnalyzer Shape.

Lemma alnum_classes (c : ascii) :
  ascii_alnum c = true ->
  islower c = in_range "a" "z" c
  /\ isupper c = in_range "A" "Z" c
  /\ isdigit c = in_range "0" "9" c
  /\ mem c PasswordGenerator.symbols = false
  /\ mem c symbol_set = false.
Proof.
  destruct c as [b0 b1 b2 b3 b4 b5 b6 b7].
  destruct b0, b1, b2, b3, b4, b5, b6, b7; intros H;
    vm_compute in H; try discriminate H; vm_compute; repeat split.
Qed.

Lemma existsb_agree (p q : ascii -> bool) (s : list ascii) :
  Forall (fun c => p c = q c) s -> existsb p s = existsb q s.
Proof.
  induction 1 as [| c s Hc _ IH]; [reflexivity |].
  cbn [existsb]. now rewrite Hc, IH.
Qed.

Lemma alnum_flags (s : list ascii) :
  forallb ascii_alnum s = true ->
  existsb islower s = existsb (in_range "a" "z") s
  /\ existsb isupper s = existsb (in_range "A" "Z") s
  /\ existsb isdigit s = existsb (in_range "0" "9") s
  /\ existsb (fun c => mem c PasswordGenerator.symbols) s = false
  /\ existsb (fun c => mem c symbol_set) s = false.
Proof.
  intros H.
  assert (Hall : Forall (fun c => ascii_alnum c = true) s)
    by (apply Forall_forall; now apply forallb_forall).
  repeat split.
  - apply existsb_agree. eapply Forall_impl; [| exact Hall].
    intros c Hc. now apply alnum_classes.
  - apply existsb_agree. eapply Forall_impl; [| exact Hall].
    intros c Hc. now apply alnum_classes.
  - apply existsb_agree. eapply Forall_impl; [| exact Hall].
    intros c Hc. now apply alnum_classes.
  - rewrite (existsb_agree _ (fun _ => false) s).
    + clear. induction s; [reflexivity | exact IHs].
    + eapply Forall_impl; [| exact Hall].
      intros c Hc. now apply alnum_classes.
  - rewrite (existsb_agree _ (fun _ => false) s).
    + clear. induction s; [reflexivity | exact IHs].
    + eapply Forall_impl; [| exact Hall].
      intros c Hc. now apply alnum_classes.
Qed.

Lemma charset_size_flags (password : string) :
  charset_size password
  = (if existsb (in_range "a" "z") (chars password) then 26 else 0)
    + (if existsb (in_range "A" "Z") (chars password) then 26 else 0)
    + (if existsb (in_range "0" "9") (chars password) then 10 else 0)
    + (if existsb (fun c => mem c symbol_set) (chars password)
       then 32 else 0).
Proof.
  unfold charset_size, re_lower, re_upper, re_digit, re_symbol.
  rewrite !search_class.
  destruct (existsb (in_range "a" "z") _), (existsb (in_range "A" "Z") _),
    (existsb (in_range "0" "9") _), (existsb (fun c => mem c symbol_set) _);
    reflexivity.
Qed.

(** X13: on a password made of ASCII letters and digits only, the quick
    estimate of the generator and the analyzer agree on the character-set
    size and on the entropy. *)
Theorem estimators_agree_on_alphanumerics (password : string) :
  forallb ascii_alnum (chars password) = true ->
  PasswordGenerator.es_charset_size
    (PasswordGenerator.estimate_strength password)
  = charset_size password
  /\ PasswordGenerator.es_entropy
       (PasswordGenerator.estimate_strength password)
     = calculate_entropy password.
Proof.
  intros H.
  destruct (alnum_flags (chars password) H) as (Hl & Hu & Hd & Hs & Ha).
  assert (Hcs : PasswordGenerator.es_charset_size
                  (PasswordGenerator.estimate_strength password)
                = charset_size password).
  { rewrite estimate_charset, charset_size_flags, Hl, Hu, Hd, Hs, Ha.
    reflexivity. }
  split; [exact Hcs |].
  destruct (estimate_strength_cases password) as (_ & _ & He).
  rewrite He, Hcs. unfold calculate_entropy.
  rewrite charset_size_flags.
  destruct (existsb (in_range "a" "z") _), (existsb (in_range "A" "Z") _),
    (existsb (in_range "0" "9") _), (existsb (fun c => mem c symbol_set) _);
    reflexivity.
Qed.

(** X14: in every password that [generate_random] returns, the analyzer's
    [get_character_diversity] finds each class that was selected. *)
Theorem generated_classes_seen_by_analyzer
    (n : Z) (ul uu ud us amb : bool) (excl : string)
    (w : PasswordGenerator.world) (pw : string)
    (w' : PasswordGenerator.world) :
  PasswordGenerator.generate_random n ul uu ud us amb excl w = Ok (pw, w') ->
  (ul = true ->
   getitem (get_character_diversity pw) "has_lowercase" = Ok true)
  /\ (uu = true ->
      getitem (get_character_diversity pw) "has_uppercase" = Ok true)
  /\ (ud = true ->
      getitem (get_character_diversity pw) "has_numbers" = Ok true)
  /\ (us = true ->
      getitem (get_character_diversity pw) "has_symbols" = Ok true).
Proof.
  intros E.
  destruct (generate_random_returns _ _ _ _ _ _ _ _ _ _ E) as [H4 Hpool].
  destruct (generate_random_classes_present n ul uu ud us amb excl w
              H4 Hpool) as (pw1 & w1 & E1 & _ & Hl & Hu & Hd & Hs).
  rewrite E in E1. injection E1 as <- <-.
  repeat split; intros Huse.
  - change (Ok (Re.search re_lower (chars pw)) = Ok true). f_equal.
    unfold re_lower. rewrite search_class.
    exact (existsb_has_char (in_range "a" "z") PasswordGenerator.lowercase
             pw eq_refl (Hl Huse)).
  - change (Ok (Re.search re_upper (chars pw)) = Ok true). f_equal.
    unfold re_upper. rewrite search_class.
    exact (existsb_has_char (in_range "A" "Z") PasswordGenerator.uppercase
             pw eq_refl (Hu Huse)).
  - change (Ok (Re.search re_digit (chars pw)) = Ok true). f_equal.
    unfold re_digit. rewrite search_class.
    exact (existsb_has_char (in_range "0" "9") PasswordGenerator.digits
             pw eq_refl (Hd Huse)).
  - change (Ok (Re.search re_symbol (chars pw)) = Ok true). f_equal.
    unfold re_symbol. rewrite search_class.
    exact (existsb_has_char (fun c => mem c symbol_set)
             PasswordGenerator.symbols pw eq_refl (Hs Huse)).
Qed.

(** ** Entropy under extension *)

Lemma chars_append (p q : string) :
  chars (String.append p q) = chars p ++ chars q.
Proof.
  unfold chars.
  induction p as [| a p IH]; cbn; [reflexivity | f_equal; exact IH].
Qed.

Lemma len_append (p q : string) :
  len (String.append p q) = len p + len q.
Proof.
  unfold len. rewrite <- !length_chars, chars_append, length_app. lia.
Qed.

Lemma hundredths_mono (n c m d : Z) :
  0 <= n <= m -> 0 < c <= d -> hundredths n c <= hundredths m d.
Proof.
  intros Hn Hc. unfold hundredths.
  apply Z.div_le_mono; [lia |].
  apply Z.add_le_mono_r, Z.log2_le_mono.
  apply Z.pow_le_mono; lia.
Qed.

Lemma charset_size_append (p q : string) :
  0 <= charset_size p <= charset_size (String.append p q).
Proof.
  rewrite !charset_size_flags, chars_append, !existsb_app.
  destruct (existsb (in_range "a" "z") (chars p)),
    (existsb (in_range "A" "Z") (chars p)),
    (existsb (in_range "0" "9") (chars p)),
    (existsb (fun c => mem c symbol_set) (chars p));
    cbn [orb];
    destruct (existsb (in_range "a" "z") (chars q)),
      (existsb (in_range "A" "Z") (chars q)),
      (existsb (in_range "0" "9") (chars q)),
      (existsb (fun c => mem c symbol_set) (chars q)); lia.
Qed.

(** X15: extending a password never lowers the entropy that
    [calculate_entropy] gives it. *)
Theorem entropy_grows_with_extension (p q : string) :
  calculate_entropy p <= calculate_entropy (String.append p q).
Proof.
  pose proof (charset_size_append p q) as Hcs.
  pose proof (calculate_entropy_nonneg (String.append p q)) as Hnn.
  unfold calculate_entropy in *.
  destruct (Z.eqb_spec (charset_size p) 0) as [_ | Hp]; [exact Hnn |].
  destruct (Z.eqb_spec (charset_size (String.append p q)) 0) as [Hq | _];
    [lia |].
  apply hundredths_mono.
  - rewrite len_append. pose proof (len_nonneg p). pose proof (len_nonneg q).
    lia.
  - lia.
Qed.

(** ** Missing keys *)

(** X16: [generate_recommendations] returns a list exactly when the
    diversity dictionary has the four keys it reads and the pattern
    dictionary has the six; otherwise it raises [KeyError] for a missing
    one of these keys, and no other exception.  The key has_spaces is not
    read. *)
Theorem recommendations_need_keys
    (password : string) (patterns diversity : dict bool) :
  let diversity_keys :=
    ["has_uppercase"; "has_lowercase"; "has_numbers"; "has_symbols"] in
  let pattern_keys :=
    ["sequential_numbers"; "sequential_letters"; "repeated_characters";
     "keyboard_pattern"; "common_word"; "date_pattern"] in
  match generate_recommendations password patterns diversity with
  | Ok _ =>
      (forall k, In k diversity_keys -> get_opt diversity k <> None)
      /\ (forall k, In k pattern_keys -> get_opt patterns k <> None)
  | Raise (KeyError k) =>
      (In k diversity_keys /\ get_opt diversity k = None)
      \/ (In k pattern_keys /\ get_opt patterns k = None)
  | Raise _ => False
  end.
Proof.
  cbv zeta. unfold generate_recommendations, getitem, rbind.
  repeat match goal with
  | |- context [get_opt ?d ?k] =>
      let E := fresh "E" in
      destruct (get_opt d k) eqn:E;
      [| solve [ (left; split; [cbn; tauto | exact E])
               || (right; split; [cbn; tauto | exact E]) ] ]
  end.
  split; intros k Hk; cbn in Hk;
    repeat (destruct Hk as [<- | Hk]; [congruence |]); contradiction.
Qed.

(** ** The affirmative message *)

Lemma append_if_in (x : string) (c : bool) (m : string) (l : list string) :
  In x (append_if c m l) -> In x l \/ (c = true /\ x = m).
Proof.
  unfold append_if. destruct c; [| now left].
  intros H. apply in_app_or in H. destruct H as [H | [H | []]]; auto.
Qed.

Lemma append_if_nil (c : bool) (m : string) (l : list string) :
  append_if c m l = [] <-> l = [] /\ c = false.
Proof.
  unfold append_if. destruct c; split.
  - intros H. apply app_eq_nil in H. destruct H as [_ H]. discriminate.
  - intros [_ H]. discriminate.
  - intros ->. now split.
  - intros [-> _]. reflexivity.
Qed.

Lemma append_if_length (c : bool) (m : string) (l : list string) :
  (List.length (append_if c m l) <= S (List.length l))%nat.
Proof.
  unfold append_if. destruct c; [rewrite length_app; cbn |]; lia.
Qed.

Lemma generate_recommendations_explicit
    (password : string) (b1 b2 b3 b4 b5 b6 d1 d2 d3 d4 d5 : bool) :
  generate_recommendations password
    [ ("sequential_numbers", b1); ("sequential_letters", b2);
      ("repeated_characters", b3); ("keyboard_pattern", b4);
      ("common_word", b5); ("date_pattern", b6) ]
    [ ("has_lowercase", d1); ("has_uppercase", d2); ("has_numbers", d3);
      ("has_symbols", d4); ("has_spaces", d5) ]
  = let recs :=
      append_if b6 "Avoid using dates as they're easy to guess"
     (append_if b5 "This password is too common - choose something unique"
     (append_if b4 "Avoid keyboard patterns (qwerty, asdf)"
     (append_if b3 "Avoid repeating the same character multiple times"
     (append_if b2 "Avoid sequential letters (abc, xyz)"
     (append_if b1 "Avoid sequential numbers (123, 456)"
     (append_if (negb d4) "Add special symbols (!@#$%^&*)"
     (append_if (negb d3) "Include numbers"
     (append_if (negb d1) "Add lowercase letters"
     (append_if (negb d2) "Add uppercase letters"
     (append_if (len password <? 12)
        "Increase password length to at least 12 characters" [])))))))))) in
    Ok (match recs with
        | [] => recs ++ [great_password]
        | _ => recs
        end).
Proof. reflexivity. Qed.

(** X17: on a password's own findings, the list of recommendations has
    between 1 and 11 entries; it contains the affirmative message exactly
    when the password has at least 12 characters, an uppercase and a
    lowercase letter, a digit and a symbol, and no pattern flag, and then
    that message is the only entry. *)
Theorem affirmative_exactly_when_nothing_to_fix (password : string) :
  exists recs,
    generate_recommendations password (check_patterns password)
      (get_character_diversity password) = Ok recs
    /\ (1 <= List.length recs <= 11)%nat
    /\ (In great_password recs <->
        12 <= len password
        /\ getitem (get_character_diversity password) "has_uppercase" = Ok true
        /\ getitem (get_character_diversity password) "has_lowercase" = Ok true
        /\ getitem (get_character_diversity password) "has_numbers" = Ok true
        /\ getitem (get_character_diversity password) "has_symbols" = Ok true
        /\ Forall (fun flag => flag = false)
                  (values (check_patterns password)))
    /\ (In great_password recs -> recs = [great_password]).
Proof.
  unfold check_patterns, get_character_diversity.
  set (b1 := Re.search re_sequential_numbers _).
  set (b2 := Re.search re_sequential_letters _).
  set (b3 := Re.search_repeated _).
  set (b4 := existsb _ keyboard_patterns).
  set (b5 := existsb _ common_passwords).
  set (b6 := Re.search re_date _).
  set (d1 := Re.search re_lower _).
  set (d2 := Re.search re_upper _).
  set (d3 := Re.search re_digit _).
  set (d4 := Re.search re_symbol _).
  set (d5 := mem " " _).
  clearbody b1 b2 b3 b4 b5 b6 d1 d2 d3 d4 d5.
  rewrite generate_recommendations_explicit. cbv zeta.
  set (recs0 := append_if b6 _ _).
  assert (Hno : ~ In great_password recs0).
  { unfold recs0. intros H.
    repeat (apply append_if_in in H;
            destruct H as [H | [_ H]]; [| discriminate H]).
    exact H. }
  assert (Hlen : (List.length recs0 <= 11)%nat).
  { unfold recs0.
    repeat (eapply Nat.le_trans; [apply append_if_length |];
            apply le_n_S).
    cbn. lia. }
  assert (Hnil : recs0 = [] <->
                 (len password <? 12) = false /\ d2 = true /\ d1 = true
                 /\ d3 = true /\ d4 = true
                 /\ b1 = false /\ b2 = false /\ b3 = false
                 /\ b4 = false /\ b5 = false /\ b6 = false).
  { unfold recs0. split.
    - intros H.
      repeat (apply append_if_nil in H; destruct H as [H ?]).
      repeat match goal with
      | H : negb ?d = false |- _ => apply negb_false_iff in H
      end.
      tauto.
    - intros (HL & -> & -> & -> & -> & -> & -> & -> & -> & -> & ->).
      rewrite HL. reflexivity. }
  eexists. split; [reflexivity |].
  assert (Hcond :
    (12 <= len password
     /\ Ok d2 = Ok true /\ Ok d1 = Ok true /\ Ok d3 = Ok true
     /\ Ok d4 = Ok true
     /\ Forall (fun flag => flag = false) [b1; b2; b3; b4; b5; b6])
    <-> recs0 = []).
  { rewrite Hnil. split.
    - intros (HL & H2 & H1 & H3 & H4 & HF).
      injection H2 as ->. injection H1 as ->. injection H3 as ->.
      injection H4 as ->.
      repeat match goal with
      | H : Forall _ (_ :: _) |- _ =>
          let Hh := fresh "Hh" in
          pose proof (Forall_inv H) as Hh; cbv beta in Hh;
          apply Forall_inv_tail in H
      end.
      repeat split; try assumption. apply Z.ltb_ge. exact HL.
    - intros (HL & -> & -> & -> & -> & -> & -> & -> & -> & -> & ->).
      apply Z.ltb_ge in HL. repeat split; try assumption.
      repeat constructor. }
  change (getitem _ "has_uppercase") with (@Ok bool d2).
  change (getitem _ "has_lowercase") with (@Ok bool d1).
  change (getitem _ "has_numbers") with (@Ok bool d3).
  change (getitem _ "has_symbols") with (@Ok bool d4).
  change (values _) with [b1; b2; b3; b4; b5; b6].
  rewrite Hcond.
  destruct recs0 as [| r recs0'] eqn:E0.
  - cbn [app List.length]. split; [lia |].
    split; [| reflexivity].
    split; [reflexivity | intros _; now left].
  - split; [cbn [List.length] in *; lia |].
    split; [split; [intros H; contradiction | discriminate] |].
    intros H. contradiction.
Qed.

(** ** Patterns *)

Lemma tails_suffix {A : Type} (a t : list A) : In t (tails (a ++ t)).
Proof.
  induction a as [| x a IH]; cbn [app tails].
  - destruct t; now left.
  - now right.
Qed.

Lemma times_digits (lo n : nat) (d b : list ascii) :
  List.length d = lo -> (lo <= n)%nat ->
  forallb (in_range "0" "9") d = true ->
  In b (Re.times (Re.matches Re.digit) lo n (d ++ b)).
Proof.
  revert lo n. induction d as [| c d IH]; intros lo n Hlen Hn Hd.
  - cbn in Hlen. subst lo. destruct n; cbn; now left.
  - cbn in Hlen. destruct lo as [| lo]; [discriminate |].
    destruct n as [| n]; [lia |].
    cbn [forallb] in Hd. apply andb_prop in Hd. destruct Hd as [Hc Hd].
    cbn [Re.times Nat.eqb Nat.pred app].
    change (Re.matches Re.digit (c :: d ++ b))
      with (if in_range "0" "9" c then [d ++ b] else []).
    rewrite Hc. cbn [flat_map]. apply in_or_app. left.
    apply IH; [lia | lia | exact Hd].
Qed.

Lemma matches_alt_r (r1 r2 : Re.regex) (t x : list ascii) :
  In x (Re.matches r2 t) ->
  match Re.matches (Re.Alt r1 r2) t with [] => false | _ => true end = true.
Proof.
  intros H. change (Re.matches (Re.Alt r1 r2) t)
    with (Re.matches r1 t ++ Re.matches r2 t).
  destruct (Re.matches r1 t); [| reflexivity].
  destruct (Re.matches r2 t); [contradiction | reflexivity].
Qed.

(** X18: a password that contains six digits in a row has the
    date_pattern flag set. *)
Theorem six_digits_flagged_as_date (a d b : list ascii) :
  List.length d = 6%nat ->
  forallb (in_range "0" "9") d = true ->
  getitem (check_patterns (str (a ++ d ++ b))) "date_pattern" = Ok true.
Proof.
  intros Hlen Hd.
  change (Ok (Re.search re_date (chars (str (a ++ d ++ b)))) = Ok true).
  f_equal. rewrite chars_str. unfold Re.search.
  apply existsb_exists. exists (d ++ b). split; [apply tails_suffix |].
  unfold re_date. apply (matches_alt_r _ _ _ b).
  exact (times_digits 6 8 d b Hlen ltac:(lia) Hd).
Qed.

Lemma search_repeated_spec (s : list ascii) :
  Re.search_repeated s = true <->
  exists a c b, s = a ++ c :: c :: c :: b /\ c <> "010"%char.
Proof.
  split.
  - induction s as [| x t IH]; [discriminate |].
    cbn [Re.search_repeated].
    destruct t as [| y [| z r]]; try discriminate.
    intros H. apply orb_prop in H. destruct H as [H | H].
    + apply andb_prop in H. destruct H as [H Hz].
      apply andb_prop in H. destruct H as [Hx Hy].
      apply Ascii.eqb_eq in Hy, Hz. subst y z.
      exists [], x, r. split; [reflexivity |].
      intros ->. discriminate.
    + destruct (IH H) as (a & c & b & E & Hc).
      exists (x :: a), c, b. split; [cbn; now rewrite E | exact Hc].
  - intros (a & c & b & -> & Hc).
    induction a as [| x a IH].
    + cbn [app Re.search_repeated]. rewrite !Ascii.eqb_refl.
      apply Ascii.eqb_neq in Hc. rewrite Hc. reflexivity.
    + cbn [app]. cbn [app] in IH.
      destruct a as [| y [| z a]]; cbn [app] in *;
        cbn [Re.search_repeated]; cbn [Re.search_repeated] in IH;
        rewrite IH; apply orb_true_r.
Qed.

(** X19: the repeated_characters flag is set exactly when some character
    other than the newline occurs three times in a row; a run of
    newlines does not set it. *)
Theorem repeated_flag_characterized (password : string) :
  getitem (check_patterns password) "repeated_characters" = Ok true <->
  exists a c b,
    chars password = a ++ c :: c :: c :: b /\ c <> "010"%char.
Proof.
  change (getitem (check_patterns password) "repeated_characters")
    with (@Ok bool (Re.search_repeated (chars password))).
  rewrite <- search_repeated_spec. split.
  - intros H. now injection H.
  - intros ->. reflexivity.
Qed.

(** ** Common passwords *)

Lemma lower_alnum_char (c : ascii) :
  ascii_alnum (lower_char c) = true ->
  mem c symbol_set = false /\ Ascii.eqb " " c = false.
Proof.
  destruct c as [b0 b1 b2 b3 b4 b5 b6 b7].
  destruct b0, b1, b2, b3, b4, b5, b6, b7; intros H;
    vm_compute in H; try discriminate H; vm_compute; split; reflexivity.
Qed.

Lemma common_word_entry (s : list ascii) :
  existsb (String.eqb (str (lower s))) common_passwords = true ->
  (5 <= List.length s <= 11)%nat
  /\ Forall (fun c => ascii_alnum (lower_char c) = true) s.
Proof.
  intros H. apply existsb_exists in H. destruct H as [x [Hx E]].
  apply String.eqb_eq in E.
  assert (Hl : lower s = chars x) by (rewrite <- E; now rewrite chars_str).
  assert (Hentry : (5 <= List.length (chars x) <= 11)%nat
                   /\ forallb ascii_alnum (chars x) = true).
  { cbn in Hx.
    repeat (destruct Hx as [<- | Hx]; [split; [cbn; lia | reflexivity] |]).
    contradiction. }
  destruct Hentry as [Hlen Hal]. rewrite <- Hl in Hlen, Hal.
  unfold lower in Hlen, Hal. rewrite length_map in Hlen.
  split; [exact Hlen |].
  rewrite forallb_forall in Hal. apply Forall_forall. intros c Hc.
  apply Hal. now apply in_map.
Qed.

Lemma entropy_component_max (e : Z) :
  0 <= e -> Spec.entropy_component e <= 30.
Proof.
  intros He. unfold Spec.entropy_component.
  destruct (Z.leb_spec 6000 e); [lia |].
  destruct (Z.leb_spec 4000 e); [lia |].
  destruct (Z.leb_spec 2500 e); [lia |].
  assert (e / 200 <= 2500 / 200) by (apply Z.div_le_mono; lia).
  change (2500 / 200) with 12 in *. lia.
Qed.

(** X20: when the common_word flag of a password is set and the guess
    estimator scores it at most 4, [calculate_score] gives at most 56, so
    the label is neither "Strong" nor "Very Strong". *)
Theorem common_password_never_strong
    (zxcvbn : string -> ZxcvbnResult) (password : string) :
  zx_score (zxcvbn password) <= 4 ->
  getitem (check_patterns password) "common_word" = Ok true ->
  fst (calculate_score zxcvbn password) <= 56
  /\ snd (calculate_score zxcvbn password) <> "Strong"
  /\ snd (calculate_score zxcvbn password) <> "Very Strong".
Proof.
  intros Hzx Hcommon.
  change (getitem (check_patterns password) "common_word")
    with (@Ok bool (existsb (String.eqb (str (lower (chars password))))
                            common_passwords)) in Hcommon.
  assert (Hinj : forall b : bool, @Ok bool b = Ok true -> b = true)
    by (intros b Hb; now injection Hb).
  apply Hinj in Hcommon. clear Hinj.
  destruct (common_word_entry _ Hcommon) as [Hlen Hal].
  assert (Hne : password <> "").
  { intros ->. cbn in Hlen. lia. }
  assert (Hsym : existsb (fun c => mem c symbol_set) (chars password) = false).
  { rewrite (existsb_agree _ (fun _ => false)).
    - clear. induction (chars password); [reflexivity | assumption].
    - eapply Forall_impl; [| exact Hal].
      intros c Hc. now apply lower_alnum_char. }
  assert (Hsp : mem " " (chars password) = false).
  { unfold mem. rewrite (existsb_agree _ (fun _ => false)).
    - clear. induction (chars password); [reflexivity | assumption].
    - eapply Forall_impl; [| exact Hal].
      intros c Hc. now apply lower_alnum_char. }
  rewrite (calculate_score_nonempty zxcvbn password Hne). cbv zeta.
  cbn [fst snd].
  assert (HL : Spec.length_component (len password) <= 15).
  { unfold Spec.length_component, len. rewrite <- length_chars.
    destruct (Z.leb_spec 16 (Z.of_nat (List.length (chars password))));
      [lia |].
    destruct (Z.leb_spec 12 (Z.of_nat (List.length (chars password))));
      [lia |].
    destruct (Z.leb_spec 8 (Z.of_nat (List.length (chars password)))); lia. }
  pose proof (entropy_component_max _ (calculate_entropy_nonneg password))
    as HE.
  assert (HD : Spec.diversity_component (get_character_diversity password)
               <= 15).
  { unfold Spec.diversity_component, get_character_diversity, values,
      re_symbol.
    cbn [map snd]. rewrite search_class, Hsym, Hsp.
    destruct (Re.search re_lower _), (Re.search re_upper _),
      (Re.search re_digit _); cbn; lia. }
  assert (HP : Spec.pattern_penalties (check_patterns password) <= -20).
  { unfold Spec.pattern_penalties, check_patterns.
    cbn [fold_right fst snd]. rewrite Hcommon.
    destruct (Re.search re_sequential_numbers _),
      (Re.search re_sequential_letters _), (Re.search_repeated _),
      (existsb _ keyboard_patterns), (Re.search re_date _); cbn; lia. }
  set (total := Spec.length_component (len password)
                + Spec.entropy_component (calculate_entropy password)
                + Spec.diversity_component (get_character_diversity password)
                + Spec.pattern_penalties (check_patterns password)
                + 4 * zx_score (zxcvbn password)) in *.
  assert (Hc : Spec.clamp total <= 56).
  { unfold Spec.clamp.
    destruct (Z.ltb_spec total 0); [lia |].
    destruct (Z.ltb_spec 100 total); lia. }
  split; [exact Hc |].
  unfold Spec.label.
  destruct (Z.leb_spec 80 (Spec.clamp total)); [lia |].
  destruct (Z.leb_spec 60 (Spec.clamp total)); [lia |].
  split;
    repeat match goal with
    | |- context [if ?c then _ else _] => destruct c
    end; discriminate.
Qed.

End AnalyzerProperties.

(** * Further properties: breach statistics *)

Section BreachProperties.

Import Py BreachChecker.

Variable check_password_breach : nat -> string -> bool * Z.

Lemma statistics_loop_ok (i : nat) (passwords : list string)
    (breached exposures a b c d e : Z) :
  exists breached' exposures' a' b' c' d' e',
    statistics_loop check_password_breach i passwords breached exposures
      [ ("Safe", a); ("Low Risk", b); ("Medium Risk", c);
        ("High Risk", d); ("Critical Risk", e) ]
    = Ok (breached', exposures',
          [ ("Safe", a'); ("Low Risk", b'); ("Medium Risk", c');
            ("High Risk", d'); ("Critical Risk", e') ])
    /\ (a' - a) + (breached' - breached) = Z.of_nat (List.length passwords)
    /\ (b' - b) + (c' - c) + (d' - d) + (e' - e) = breached' - breached
    /\ 0 <= a' - a /\ 0 <= b' - b /\ 0 <= c' - c /\ 0 <= d' - d
    /\ 0 <= e' - e.
Proof.
  revert i breached exposures a b c d e.
  induction passwords as [| p passwords IH];
    intros i breached exposures a b c d e.
  - cbn [statistics_loop List.length].
    do 7 eexists. split; [reflexivity |]. lia.
  - cbn [statistics_loop].
    destruct (check_password_breach i p) as [is_breached count].
    unfold _calculate_risk_level.
    destruct is_breached; cbn [negb];
      [destruct (count <? 10);
       [| destruct (count <? 100); [| destruct (count <? 1000)]] |];
      cbn [getitem get_opt String.eqb Ascii.eqb Bool.eqb rbind setitem];
      match goal with
      | |- context [statistics_loop _ _ passwords ?br ?ex
                      [ (_, ?a1); (_, ?b1); (_, ?c1); (_, ?d1); (_, ?e1) ]] =>
          destruct (IH (S i) br ex a1 b1 c1 d1 e1)
            as (br' & ex' & a' & b' & c' & d' & e' & E & H)
      end;
      rewrite E; do 7 eexists; (split; [reflexivity |]);
      cbn [List.length]; rewrite Nat2Z.inj_succ; lia.
Qed.

(** X21: [get_breach_statistics] never raises [KeyError]: every risk level
    it computes is a key of its distribution.  In its result the breached
    and the safe counts add up to the number of passwords checked, the
    five buckets of the distribution add up to that number too, and the
    "Safe" bucket is the safe count. *)
Theorem breach_statistics_consistent (passwords : list string) :
  exists st a b c d e,
    get_breach_statistics check_password_breach passwords = Ok st
    /\ total_checked st = Z.of_nat (List.length passwords)
    /\ breached_count st + safe_count st = total_checked st
    /\ 0 <= breached_count st <= total_checked st
    /\ risk_distribution st =
       [ ("Safe", a); ("Low Risk", b); ("Medium Risk", c);
         ("High Risk", d); ("Critical Risk", e) ]
    /\ a = safe_count st
    /\ b + c + d + e = breached_count st
    /\ 0 <= b /\ 0 <= c /\ 0 <= d /\ 0 <= e.
Proof.
  unfold get_breach_statistics.
  destruct (statistics_loop_ok 0 passwords 0 0 0 0 0 0 0)
    as (br & ex & a & b & c & d & e & E & H).
  rewrite E. cbn [rbind].
  eexists _, a, b, c, d, e. split; [reflexivity |].
  cbn [total_checked breached_count safe_count risk_distribution].
  repeat split; lia.
Qed.

(** X22: the breach percentage of [get_breach_statistics] lies between 0
    and 100, and it is 0, with no division, for an empty list. *)
Theorem breach_percentage_range (passwords : list string) :
  exists st,
    get_breach_statistics check_password_breach passwords = Ok st
    /\ (0 <= breach_percentage st)%Q
    /\ (breach_percentage st <= 100)%Q
    /\ (passwords = [] -> breach_percentage st = 0%Q).
Proof.
  unfold get_breach_statistics.
  destruct (statistics_loop_ok 0 passwords 0 0 0 0 0 0 0)
    as (br & ex & a & b & c & d & e & E & H).
  rewrite E. cbn [rbind].
  eexists. split; [reflexivity |]. cbn [breach_percentage].
  assert (Hbr : 0 <= br <= Z.of_nat (List.length passwords)) by lia.
  destruct (Z.of_nat (List.length passwords)) as [| t | t] eqn:Et.
  - cbn. repeat split; try discriminate.
  - change (Z.pos t >? 0) with true. cbv iota.
    unfold Qle, Qdiv, Qmult, Qinv, inject_Z. cbn [Qnum Qden].
    repeat split.
    + cbn. nia.
    + cbn. rewrite ?Pos.mul_1_r, ?Pos.mul_1_l. nia.
    + intros ->. discriminate.
  - lia.
Qed.

End BreachProperties.

(** * Further properties: memorable passwords under the analyzer *)

Section MemorableProperties.

Import Py PasswordAnalyzer PasswordGenerator Shape.

Lemma capitalized_adjective (word : string) :
  In word adjectives ->
  exists c d t,
    capitalize (chars word) = c :: d :: t
    /\ in_range "A" "Z" c = true /\ in_range "a" "z" d = true.
Proof.
  intros H. cbn in H.
  repeat (destruct H as [<- | H];
          [do 3 eexists; split; [reflexivity | split; reflexivity] |]).
  contradiction.
Qed.

Lemma existsb_nonempty_class (p : ascii -> bool) (class s : list ascii) :
  forallb p class = true -> all_of class s -> s <> [] ->
  existsb p s = true.
Proof.
  intros Hp Hall Hne. destruct Hall as [| c s Hc _]; [contradiction |].
  cbn [existsb]. now rewrite (class_forall p class Hp c Hc).
Qed.

(** X23: every password of [generate_memorable] with numbers, symbols and
    capitalization requested has, for the analyzer, a lowercase letter, an
    uppercase letter, a digit and a symbol. *)
Theorem memorable_password_has_every_class (word_count : Z) (w : world) :
  exists pw w',
    generate_memorable word_count true true true w = Ok (pw, w')
    /\ getitem (get_character_diversity pw) "has_lowercase" = Ok true
    /\ getitem (get_character_diversity pw) "has_uppercase" = Ok true
    /\ getitem (get_character_diversity pw) "has_numbers" = Ok true
    /\ getitem (get_character_diversity pw) "has_symbols" = Ok true.
Proof.
  destruct (generate_memorable_run word_count true true true w)
    as (words & number & syms & w' & E & Hlen & Hidx & [Hnl Hnd] & [Hsl Hsd]).
  exists (str (List.concat words ++ number ++ syms)), w'.
  split; [exact E |].
  destruct words as [| first words]; [cbn in Hlen; lia |].
  destruct (Hidx 0%nat first eq_refl) as (word & Hin & Hfirst).
  assert (Hf : first = capitalize (chars word)) by exact Hfirst.
  clear Hfirst.
  destruct (capitalized_adjective word Hin) as (c & d & t & Hcap & Hc & Hd).
  rewrite Hcap in Hf. subst first.
  assert (Hlow : existsb (in_range "a" "z")
                   (List.concat ((c :: d :: t) :: words) ++ number ++ syms)
                 = true).
  { cbn [List.concat app existsb]. rewrite Hd. apply orb_true_r. }
  assert (Hup : existsb (in_range "A" "Z")
                  (List.concat ((c :: d :: t) :: words) ++ number ++ syms)
                = true).
  { cbn [List.concat app existsb]. now rewrite Hc. }
  assert (Hdig : existsb (in_range "0" "9")
                   (List.concat ((c :: d :: t) :: words) ++ number ++ syms)
                 = true).
  { rewrite !existsb_app.
    rewrite (existsb_nonempty_class (in_range "0" "9") digits number
               eq_refl Hnd).
    - destruct (existsb _ (List.concat _)); reflexivity.
    - intros ->. cbn in Hnl. lia. }
  assert (Hsym : existsb (fun x => mem x symbol_set)
                   (List.concat ((c :: d :: t) :: words) ++ number ++ syms)
                 = true).
  { rewrite !existsb_app.
    rewrite (existsb_nonempty_class (fun x => mem x symbol_set) symbols syms
               eq_refl Hsd).
    - now rewrite !orb_true_r.
    - intros ->. cbn in Hsl. lia. }
  repeat split.
  - change (Ok (Re.search re_lower (chars (str
              (List.concat ((c :: d :: t) :: words) ++ number ++ syms))))
            = Ok true).
    unfold re_lower. now rewrite search_class, chars_str, Hlow.
  - change (Ok (Re.search re_upper (chars (str
              (List.concat ((c :: d :: t) :: words) ++ number ++ syms))))
            = Ok true).
    unfold re_upper. now rewrite search_class, chars_str, Hup.
  - change (Ok (Re.search re_digit (chars (str
              (List.concat ((c :: d :: t) :: words) ++ number ++ syms))))
            = Ok true).
    unfold re_digit. now rewrite search_class, chars_str, Hdig.
  - change (Ok (Re.search re_symbol (chars (str
              (List.concat ((c :: d :: t) :: words) ++ number ++ syms))))
            = Ok true).
    unfold re_symbol. now rewrite search_class, chars_str, Hsym.
Qed.

End MemorableProperties.

(** * Instances of the properties above *)

Lemma generate_pronounceable_shape_witness :
  exists body number syms w',
    PasswordGenerator.generate_pronounceable 12 true false
      (Sample.world_of (fun n => n) (fun n => n))
    = Ok (Some (Py.str (body ++ number ++ syms)), w')
    /\ exists c t, body = c :: t /\ In c PasswordGenerator.uppercase.
Proof.
  destruct (generate_pronounceable_shape 12 true false
              (Sample.world_of (fun n => n) (fun n => n)))
    as (body & number & syms & w' & E & _ & _ & Hfirst & _).
  exists body, number, syms, w'. split; [exact E |].
  apply Hfirst. cbn. lia.
Defined.

Lemma generate_passphrase_shape_witness :
  exists w',
    PasswordGenerator.generate_passphrase 0 "-" false
      (Sample.world_of (fun n => n) (fun n => n)) = Ok ("", w').
Proof.
  destruct (generate_passphrase_shape 0 "-" false
              (Sample.world_of (fun n => n) (fun n => n)))
    as (words & w' & _ & _ & _ & H).
  exists w'. apply H. lia.
Defined.

Lemma batch_generate_passwords_witness :
  exists passwords w',
    PasswordGenerator.batch_generate 2 8 true true true true false ""
      (Sample.world_of (fun n => n) (fun n => n)) = Ok (passwords, w')
    /\ List.length passwords = 2%nat
    /\ Forall (fun pw => Py.len pw = 8) passwords.
Proof.
  destruct (batch_generate_passwords 2 8 true true true true false ""
              (Sample.world_of (fun n => n) (fun n => n)))
    as (passwords & w' & E & Hlen & Hall).
  - lia.
  - vm_compute. discriminate.
  - exists passwords, w'. split; [exact E |]. split; [exact Hlen |].
    eapply Forall_impl; [| exact Hall]. intros pw H. apply H.
Defined.

Lemma batch_generate_invalid_witness :
  PasswordGenerator.batch_generate 0 3 true true true true false ""
    (Sample.world_of (fun n => n) (fun n => n))
  = Ok ([], Sample.world_of (fun n => n) (fun n => n)).
Proof.
  destruct (batch_generate_invalid 0 3 true true true true false ""
              (Sample.world_of (fun n => n) (fun n => n)))
    as [[_ E] | [H _]].
  - left. lia.
  - exact E.
  - lia.
Defined.

Lemma suggestions_fallback_witness :
  PasswordGenerator.get_password_suggestions "banking"
    (Sample.world_of (fun n => n) (fun n => n))
  = PasswordGenerator.get_password_suggestions "general"
      (Sample.world_of (fun n => n) (fun n => n)).
Proof.
  apply suggestions_fallback.
  cbn. intros H.
  repeat (destruct H as [H | H]; [discriminate H |]). exact H.
Defined.

Lemma suggestion_example_length_witness :
  exists s w',
    PasswordGenerator.get_password_suggestions "pin"
      (Sample.world_of (fun n => n) (fun n => n)) = Ok (s, w')
    /\ Py.len (PasswordGenerator.sg_example s) = 6
    /\ Shape.all_of PasswordGenerator.digits
         (Py.chars (PasswordGenerator.sg_example s)).
Proof.
  destruct (suggestion_example_length "pin"
              (Sample.world_of (fun n => n) (fun n => n)))
    as (s & w' & E & Hlen & Hdig).
  exists s, w'. split; [exact E |].
  assert (Hs : PasswordGenerator.sg_length s = 6).
  { destruct (get_password_suggestions_run
                (Sample.world_of (fun n => n) (fun n => n)))
      as (g & h & m & p & pin & w1 & _ & _ & _ & _ & Eall).
    rewrite (Eall "pin") in E. injection E as <- _. reflexivity. }
  split; [| apply Hdig; reflexivity].
  rewrite <- Hs. apply Hlen; discriminate.
Defined.

Lemma random_password_rated_very_strong_witness :
  match PasswordGenerator.generate_random 10 true true true true false ""
          (Sample.world_of (fun n => n) (fun n => n)) with
  | Ok (pw, _) =>
      PasswordGenerator.es_strength (PasswordGenerator.estimate_strength pw)
      = "Very Strong"
  | Raise _ => False
  end.
Proof.
  destruct (PasswordGenerator.generate_random 10 true true true true false ""
              (Sample.world_of (fun n => n) (fun n => n)))
    as [[pw w'] | e] eqn:E.
  - apply (random_password_rated_very_strong 10 false ""
             (Sample.world_of (fun n => n) (fun n => n)) pw w').
    + lia.
    + exact E.
  - vm_compute in E. discriminate E.
Defined.

Lemma short_pin_rated_weak_witness :
  match PasswordGenerator.generate_random 6 false false true false false ""
          (Sample.world_of (fun n => n) (fun n => n)) with
  | Ok (pw, _) =>
      PasswordGenerator.es_strength (PasswordGenerator.estimate_strength pw)
      = "Weak"
  | Raise _ => False
  end.
Proof.
  destruct (PasswordGenerator.generate_random 6 false false true false false
              "" (Sample.world_of (fun n => n) (fun n => n)))
    as [[pw w'] | e] eqn:E.
  - apply (short_pin_rated_weak 6 false ""
             (Sample.world_of (fun n => n) (fun n => n)) pw w').
    + lia.
    + exact E.
  - vm_compute in E. discriminate E.
Defined.

Lemma estimate_needs_length_witness :
  PasswordGenerator.es_strength (PasswordGenerator.estimate_strength "aB1!")
  = "Weak".
Proof.
  apply (proj1 (proj2 (estimate_needs_length "aB1!"))).
  cbn. lia.
Defined.

Lemma estimators_agree_on_alphanumerics_witness :
  PasswordGenerator.es_entropy (PasswordGenerator.estimate_strength "abc123")
  = PasswordAnalyzer.calculate_entropy "abc123".
Proof.
  apply (estimators_agree_on_alphanumerics "abc123"). reflexivity.
Defined.

Lemma generated_classes_seen_by_analyzer_witness :
  match PasswordGenerator.generate_random 8 true false true false false ""
          (Sample.world_of (fun n => n) (fun n => n)) with
  | Ok (pw, _) =>
      Py.getitem (PasswordAnalyzer.get_character_diversity pw)
        "has_lowercase" = Ok true
      /\ Py.getitem (PasswordAnalyzer.get_character_diversity pw)
           "has_numbers" = Ok true
  | Raise _ => False
  end.
Proof.
  destruct (PasswordGenerator.generate_random 8 true false true false false
              "" (Sample.world_of (fun n => n) (fun n => n)))
    as [[pw w'] | e] eqn:E.
  - destruct (generated_classes_seen_by_analyzer 8 true false true false
                false "" (Sample.world_of (fun n => n) (fun n => n)) pw w' E)
      as (Hl & _ & Hd & _).
    split; [apply Hl | apply Hd]; reflexivity.
  - vm_compute in E. discriminate E.
Defined.

Lemma affirmative_exactly_when_nothing_to_fix_witness :
  exists recs,
    PasswordAnalyzer.generate_recommendations "MyS3cur3P@ssw0rd!"
      (PasswordAnalyzer.check_patterns "MyS3cur3P@ssw0rd!")
      (PasswordAnalyzer.get_character_diversity "MyS3cur3P@ssw0rd!")
    = Ok recs
    /\ recs = [PasswordAnalyzer.great_password].
Proof.
  destruct (affirmative_exactly_when_nothing_to_fix "MyS3cur3P@ssw0rd!")
    as (recs & E & _ & Hiff & Honly).
  exists recs. split; [exact E |].
  apply Honly, Hiff.
  split; [vm_compute; discriminate |].
  repeat (split; [reflexivity |]).
  vm_compute. repeat constructor.
Defined.

Lemma six_digits_flagged_as_date_witness :
  Py.getitem (PasswordAnalyzer.check_patterns "pin271828x") "date_pattern"
  = Ok true.
Proof.
  apply (six_digits_flagged_as_date (Py.chars "pin") (Py.chars "271828")
           (Py.chars "x")); reflexivity.
Defined.

Lemma repeated_flag_characterized_witness :
  Py.getitem (PasswordAnalyzer.check_patterns "aaa123") "repeated_characters"
  = Ok true.
Proof.
  apply (proj2 (repeated_flag_characterized "aaa123")).
  exists [], "a"%char, (Py.chars "123").
  split; [reflexivity | discriminate].
Defined.

Lemma common_password_never_strong_witness :
  fst (PasswordAnalyzer.calculate_score (Sample.estimator 4) "PaSsWoRd123")
  <= 56.
Proof.
  apply (common_password_never_strong (Sample.estimator 4) "PaSsWoRd123").
  - cbn. lia.
  - reflexivity.
Defined.
